(** * comm: recipient resolution and templated message construction

    A shallow embedding of [comm/user_table.py], [comm/platforms.py] and the
    message pipeline of [comm/templated.py], followed by the properties of
    the identity table, of [build_resources] and of [build_messages].

    Python values are embedded as follows.
    - A [dict] is an insertion-ordered association list: assigning to a key
      that is present replaces its value in place, assigning to a new key
      appends it, so that [[*d]] is [keys d].
    - A raised exception is the [Raise] branch of [result]; functions that
      also log or send run in the monad [M] over a [World].
    - Strings are [string], holding UTF-8 text; platform names and
      identifiers are strings. *)

From Stdlib Require Import Ascii String ZArith.
From stdpp Require Import base decidable option list strings.

Set Default Proof Using "Type".
Open Scope string_scope.
Open Scope list_scope.

(** ** Exceptions and results *)

Inductive exn : Type :=
| KeyError (key : string)
| TypeError (msg : string)
| IndexError (msg : string)
| ValueError (msg : string).

Inductive result (A : Type) : Type :=
| Ok (a : A)
| Raise (e : exn).
Arguments Ok {A} a.
Arguments Raise {A} e.

#[global] Instance result_ret : MRet result := fun A a => Ok a.
#[global] Instance result_bind : MBind result := fun A B f m =>
  match m with
  | Ok a => f a
  | Raise e => Raise e
  end.
#[global] Instance result_fmap : FMap result := fun A B f m =>
  match m with
  | Ok a => Ok (f a)
  | Raise e => Raise e
  end.

(** [repr] of a dictionary key, carried by the [KeyError] of a failed lookup. *)
Class PyRepr (K : Type) := py_repr : K -> string.
#[global] Instance string_repr : PyRepr string := fun s => s.

(** ** Python dictionaries *)

Module PyDict.

Abbreviation dict K V := (list (K * V)).

Section dict.
Context {K V : Type} `{EqDecision K} `{PyRepr K}.

(** [d.get(k)] *)
Fixpoint get (d : dict K V) (k : K) : option V :=
  match d with
  | [] => None
  | (k', v) :: d' => if decide (k = k') then Some v else get d' k
  end.

(** [k in d] *)
Definition contains (k : K) (d : dict K V) : bool :=
  match get d k with
  | Some _ => true
  | None => false
  end.

(** [d[k]] *)
Definition getitem (d : dict K V) (k : K) : result V :=
  match get d k with
  | Some v => Ok v
  | None => Raise (KeyError (py_repr k))
  end.

(** [d[k] = v]: a present key keeps its position, a new key goes last. *)
Fixpoint setitem (k : K) (v : V) (d : dict K V) : dict K V :=
  match d with
  | [] => [(k, v)]
  | (k', v') :: d' =>
      if decide (k = k') then (k', v) :: d' else (k', v') :: setitem k v d'
  end.

(** [[*d]], the keys in insertion order *)
Definition keys (d : dict K V) : list K := d.*1.

End dict.

End PyDict.

(** A [for] loop threading the loop state [s] through a body that may
    raise: the first exception ends the loop. *)
Fixpoint for_each {M : Type -> Type} `{MBind M, MRet M} {A S : Type}
    (body : S -> A -> M S) (s : S) (l : list A) : M S :=
  match l with
  | [] => mret s
  | x :: l' => s' ← body s x; for_each body s' l'
  end.

(** ** comm/user_table.py *)

Module user_table.

(** [class User(dict)]: platform name to the list of identifiers. *)
Abbreviation User := (PyDict.dict string (list string)).

(** [User.get_ids]: [self[platform]] *)
Definition get_ids (self : User) (platform : string) : result (list string) :=
  PyDict.getitem self platform.

(** The index: platform name to (identifier to user). *)
Abbreviation id_map := (PyDict.dict string User).
Abbreviation platform_map := (PyDict.dict string id_map).

(** [class UserTable(list)] with its [mappings] attribute. *)
Record UserTable : Type := mkUserTable {
  users : list User;
  mappings : platform_map
}.

(** The innermost loop of [_build_mappings]:
    [for user_id in ids: id_map[user_id] = user]. *)
Definition index_ids (user : User) (ids : list string) (m : id_map) : id_map :=
  foldl (fun m user_id => PyDict.setitem user_id user m) m ids.

(** The body of [for platform in user]. [id_map] aliases the entry of
    [platform_map], so filling it updates that entry in place. *)
Definition index_platform (user : User) (pm : platform_map) (platform : string)
  : result platform_map :=
  let pm :=
    if negb (PyDict.contains platform pm)
    then PyDict.setitem platform [] pm else pm in
  m ← PyDict.getitem pm platform;
  ids ← get_ids user platform;
  Ok (PyDict.setitem platform (index_ids user ids m) pm).

(** [User(user)]: a dictionary equal to [user], with the same keys in the
    same order and the same identifier lists. *)
Definition mkUser (user : User) : User := user.

(** The body of [for user in self]. *)
Definition index_user (pm : platform_map) (user : User) : result platform_map :=
  let user := mkUser user in
  for_each (index_platform user) pm (PyDict.keys user).

Definition _build_mappings (self : list User) : result platform_map :=
  for_each index_user [] self.

(** [UserTable.__init__] *)
Definition UserTable_init (data : list User) : result UserTable :=
  mappings ← _build_mappings data;
  Ok (mkUserTable data mappings).

Definition get_users (self : UserTable) (platform : string) : result id_map :=
  PyDict.getitem (mappings self) platform.

Definition get_user (self : UserTable) (platform username : string)
  : result User :=
  m ← get_users self platform;
  PyDict.getitem m username.

(** The comprehension evaluates [self.get_users(platform)] once for every
    element of [usernames], and for no element when the list is empty. *)
Fixpoint get_unrecognized (self : UserTable) (platform : string)
    (usernames : list string) : result (list string) :=
  match usernames with
  | [] => Ok []
  | username :: rest =>
      m ← get_users self platform;
      let unrecognized := negb (PyDict.contains username m) in
      out ← get_unrecognized self platform rest;
      Ok (if unrecognized then username :: out else out)
  end.

End user_table.

Import user_table.

(** ** comm/platforms.py *)

Module platforms.

(** The adapter classes [slack.Slack] and [email.Email]. *)
Inductive PlatformClass : Type := Slack | Email.

#[global] Instance PlatformClass_eq_dec : EqDecision PlatformClass.
Proof. solve_decision. Defined.

#[global] Instance PlatformClass_repr : PyRepr PlatformClass := fun c =>
  match c with
  | Slack => "<class 'comm.slack.Slack'>"
  | Email => "<class 'comm.email.Email'>"
  end.

(** Platform adapter classes by name *)
Definition platform_class : PyDict.dict string PlatformClass :=
  [("slack", Slack); ("email", Email)].

(** Platform names by adapter class:
    [{v: k for k, v in platform_class.items()}] *)
Definition platform_name : PyDict.dict PlatformClass string :=
  foldl (fun d '(k, v) => PyDict.setitem v k d) [] platform_class.

End platforms.

Import platforms.

(** ** Logging, sending and the monad of the pipeline *)

Inductive level : Type := DEBUG | ERROR.

(** What a run has logged and sent so far. *)
Record World (Msg : Type) : Type := mkWorld {
  log : list (level * string);
  outbox : list Msg
}.
Arguments mkWorld {Msg} log outbox.
Arguments log {Msg} w.
Arguments outbox {Msg} w.

(** A computation that reads and extends the world and may raise; the world
    of a raising computation is the one reached when the exception left. *)
Definition M (Msg A : Type) : Type := World Msg -> result A * World Msg.

#[global] Instance M_ret {Msg} : MRet (M Msg) := fun A a w => (Ok a, w).
#[global] Instance M_bind {Msg} : MBind (M Msg) := fun A B f m w =>
  match m w with
  | (Ok a, w') => f a w'
  | (Raise e, w') => (Raise e, w')
  end.

(** A computation that only returns or raises. *)
Definition lift {Msg A} (r : result A) : M Msg A := fun w => (r, w).

Definition raise {Msg A} (e : exn) : M Msg A := lift (Raise e).

(** [logging.debug] and [logging.error] *)
Definition logging {Msg} (lvl : level) (line : string) : M Msg () := fun w =>
  (Ok (), mkWorld (log w ++ [(lvl, line)]) (outbox w)).

(** ** Template inputs and [str.format] *)

(** What a [template_input_builder] may hand back: [None], a tuple (or
    list) of strings, a single string, or a value that cannot be iterated. *)
Inductive template_input : Type :=
| PyNone
| PyTuple (items : list string)
| PyStr (s : string)
| PyInt (n : Z).

(** [template_input is None] *)
Definition is_None (v : template_input) : bool :=
  match v with
  | PyNone => true
  | _ => false
  end.

(** A [string] holds the UTF-8 encoding of a [str]. A byte [10xxxxxx]
    continues the character that the bytes before it began. *)
Definition is_continuation (c : ascii) : bool :=
  match c with
  | Ascii _ _ _ _ _ _ b6 b7 => b7 && negb b6
  end.

(** The characters of a string, each as a string of its own: what
    iterating over a [str] yields. A character is a leading byte together
    with the continuation bytes that follow it, so a character of the ASCII
    range is one byte and any other is the two to four bytes of its code
    point. *)
Fixpoint chars (s : string) : list string :=
  match s with
  | EmptyString => []
  | String c s' =>
      let rest := chars s' in
      let continued :=
        match s' with
        | String c' _ => is_continuation c'
        | EmptyString => false
        end in
      match rest with
      | g :: gs =>
          if continued then String c g :: gs
          else String c EmptyString :: rest
      | [] => [String c EmptyString]
      end
  end.

(** Argument unpacking [*template_input]. *)
Definition unpack (v : template_input) : result (list string) :=
  match v with
  | PyTuple items => Ok items
  | PyStr s => Ok (chars s)
  | PyInt _ =>
      Raise (TypeError "format() argument after * must be an iterable, not int")
  | PyNone =>
      Raise (TypeError
               "format() argument after * must be an iterable, not NoneType")
  end.

(** The built-in [str.format], applied to a template and the unpacked
    arguments. The pipeline only decides which arguments reach it, so its
    properties are stated for any engine. *)
Class StrFormat := str_format : string -> list string -> result string.

(** The engine restricted to templates made of text, auto-numbered fields
    [{}] and the escapes [{{] and [}}]; surplus arguments are ignored, a
    field without an argument raises [IndexError]. A field with a name, an
    index, a conversion or a format specification is outside this fragment
    and is reported as a [ValueError]. *)
Fixpoint brace_format (template : string) (args : list string)
  : result string :=
  match template with
  | EmptyString => Ok EmptyString
  | String c rest =>
      if decide (c = "{"%char) then
        match rest with
        | EmptyString =>
            Raise (ValueError "Single '{' encountered in format string")
        | String c' rest' =>
            if decide (c' = "}"%char) then
              match args with
              | [] =>
                  Raise (IndexError
                    "Replacement index out of range for positional args tuple")
              | a :: args' => out ← brace_format rest' args'; Ok (a +:+ out)
              end
            else if decide (c' = "{"%char) then
              out ← brace_format rest' args; Ok (String "{" out)
            else Raise (ValueError "replacement field outside the fragment")
        end
      else if decide (c = "}"%char) then
        match rest with
        | String c' rest' =>
            if decide (c' = "}"%char) then
              out ← brace_format rest' args; Ok (String "}" out)
            else Raise (ValueError "Single '}' encountered in format string")
        | EmptyString =>
            Raise (ValueError "Single '}' encountered in format string")
        end
      else out ← brace_format rest args; Ok (String c out)
  end.

(** ** comm/templated.py *)

Module templated.

(** [basic.Message] *)
Record Message (ClientUser PlatformUser : Type) : Type := mkMessage {
  sender : ClientUser;
  recipient : PlatformUser;
  content : string
}.
Arguments mkMessage {ClientUser PlatformUser} sender recipient content.
Arguments sender {ClientUser PlatformUser} m.
Arguments recipient {ClientUser PlatformUser} m.
Arguments content {ClientUser PlatformUser} m.

(** A platform object, used only through [type(platform)]. *)
Record Platform : Type := mkPlatform { type : PlatformClass }.

(** What [basic.build_resources] returns. *)
Record BasicResources (ClientUser PlatformUser : Type) : Type :=
  mkBasicResources {
    res_platform : Platform;
    res_sender : ClientUser;
    res_recipients : list PlatformUser;
    res_content : string
  }.
Arguments mkBasicResources {ClientUser PlatformUser}.
Arguments res_platform {ClientUser PlatformUser} b.
Arguments res_sender {ClientUser PlatformUser} b.
Arguments res_recipients {ClientUser PlatformUser} b.
Arguments res_content {ClientUser PlatformUser} b.

(** What [build_resources] returns. *)
Record Resources (ClientUser PlatformUser TemplatingData : Type) : Type :=
  mkResources {
    basic_resources : BasicResources ClientUser PlatformUser;
    res_templating_data : TemplatingData;
    res_user_table : UserTable
  }.
Arguments mkResources {ClientUser PlatformUser TemplatingData}.
Arguments basic_resources {ClientUser PlatformUser TemplatingData} r.
Arguments res_templating_data {ClientUser PlatformUser TemplatingData} r.
Arguments res_user_table {ClientUser PlatformUser TemplatingData} r.

(** The collaborators whose code lies outside these modules: the adapters'
    [get_id], the construction of platform objects by
    [basic.build_resources], and the transport behind [basic.send_message]. *)
Class Adapters (SenderData ClientUser PlatformUser : Type) : Type := {
  get_id : PlatformUser -> string;
  basic_build_resources :
    string -> SenderData -> list string -> string ->
    result (BasicResources ClientUser PlatformUser);
  transport : Message ClientUser PlatformUser -> result ()
}.

Section pipeline.
Context {SenderData ClientUser PlatformUser TemplatingData : Type}.
Context `{Adapters SenderData ClientUser PlatformUser} `{StrFormat}.

Local Abbreviation Msg := (Message ClientUser PlatformUser).

(** Modelled from the spec: [basic.build_messages], which is not among the
    sources. It pairs the one sender and the one content template with each
    recipient, in the order of the recipients. *)
Definition basic_build_messages (sender : ClientUser)
    (recipients : list PlatformUser) (content : string) : list Msg :=
  map (fun r => mkMessage sender r content) recipients.

(** Modelled from the spec: [basic.send_message], which is not among the
    sources. It hands the message to the transport of the adapter, whose
    failure propagates. *)
Definition basic_send_message (message : Msg) : M Msg () := fun w =>
  match transport message with
  | Ok _ => (Ok (), mkWorld (log w) (outbox w ++ [message]))
  | Raise e => (Raise e, w)
  end.

(** The line that [build_resources] logs before expanding the default. *)
Definition default_line : string :=
  "No recipients specified in command line args. "
  +:+ "Loading recipients from user table.".

(** The default expansion of [build_resources]:
    [if recipients_data == []:] the keys of [get_users(platform_name)]
    replace [recipients_data]. *)
Definition resolve_recipients (user_table : UserTable) (platform_name : string)
    (recipients_data : list string) : M Msg (list string) :=
  if decide (recipients_data = []) then
    _ ← logging DEBUG default_line;
    m ← lift (get_users user_table platform_name);
    mret (PyDict.keys m)
  else mret recipients_data.

Definition build_resources (platform_name : string) (sender_data : SenderData)
    (recipients_data : list string) (content : string)
    (templating_data : TemplatingData) (user_table_data : list User)
  : M Msg (Resources ClientUser PlatformUser TemplatingData) :=
  user_table ← lift (UserTable_init user_table_data);
  recipients_data ←
    resolve_recipients user_table platform_name recipients_data;
  basic ← lift (basic_build_resources platform_name sender_data
                  recipients_data content);
  mret (mkResources basic templating_data user_table).

Definition skip_line (recipient_id : string) : string :=
  "Skipping user '" +:+ recipient_id
    +:+ "' because no user table entry was found".

(** The body of [for message in unfilled_messages]; the loop state is the
    list [messages]. *)
Definition fill_message (platform_name : string)
    (templating_data : TemplatingData) (user_table : UserTable)
    (template_input_builder : User -> TemplatingData -> template_input)
    (messages : list Msg) (message : Msg) : M Msg (list Msg) :=
  let recipient_id := get_id (recipient message) in
  match get_user user_table platform_name recipient_id with
  | Raise (KeyError _) =>
      _ ← logging ERROR (skip_line recipient_id);
      mret messages
  | Raise e => raise e
  | Ok user =>
      let template_input := template_input_builder user templating_data in
      if is_None template_input then mret messages
      else
        match args ← unpack template_input;
              str_format (content message) args with
        | Raise (TypeError _) =>
            raise (TypeError
                     "Output of template_input_builder must be a tuple.")
        | Raise e => raise e
        | Ok content =>
            mret (messages
                    ++ [mkMessage (sender message) (recipient message) content])
        end
  end.

(** The loop assigns the filled text to the local [content]; the template
    of each message was fixed by [basic.build_messages] before the loop, so
    the assignment reaches no later round. *)
Definition build_messages (platform : Platform) (sender : ClientUser)
    (recipients : list PlatformUser) (content : string)
    (templating_data : TemplatingData) (user_table : UserTable)
    (template_input_builder : User -> TemplatingData -> template_input)
  : M Msg (list Msg) :=
  platform_name ←
    lift (PyDict.getitem platforms.platform_name (type platform));
  let unfilled_messages := basic_build_messages sender recipients content in
  for_each (fill_message platform_name templating_data user_table
              template_input_builder) [] unfilled_messages.

Definition _send_to_all (platform : Platform) (sender : ClientUser)
    (recipients : list PlatformUser) (content : string)
    (templating_data : TemplatingData) (user_table : UserTable)
    (template_input_builder : User -> TemplatingData -> template_input)
  : M Msg () :=
  messages ← build_messages platform sender recipients content templating_data
               user_table template_input_builder;
  for_each (fun _ message => basic_send_message message) () messages.

Definition send_to_all (platform_name : string) (sender_data : SenderData)
    (recipients_data : list string) (content : string)
    (templating_data : TemplatingData) (user_table_data : list User)
    (template_input_builder : User -> TemplatingData -> template_input)
  : M Msg () :=
  r ← build_resources platform_name sender_data recipients_data content
        templating_data user_table_data;
  let b := basic_resources r in
  _send_to_all (res_platform b) (res_sender b) (res_recipients b)
    (res_content b) (res_templating_data r) (res_user_table r)
    template_input_builder.

End pipeline.

End templated.

Import templated.

(** * Vocabulary of the properties *)

(** ** The index *)

(** Record [r] lists identifier [x] for platform [p]. *)
Definition lists (r : User) (p x : string) : Prop :=
  match PyDict.get r p with
  | Some ids => x ∈ ids
  | None => False
  end.

#[global] Instance lists_dec r p x : Decision (lists r p x).
Proof. unfold lists. destruct (PyDict.get r p); apply _. Defined.

(** The two-level lookup [platform_map[p][x]], when both keys are present. *)
Definition entry (pm : platform_map) (p x : string) : option User :=
  m ← PyDict.get pm p; PyDict.get m x.

(** Every identifier map of the index has pairwise distinct keys. *)
Definition distinct_ids (pm : platform_map) : Prop :=
  ∀ p m, PyDict.get pm p = Some m → NoDup (PyDict.keys m).

(** The record that the index holds for [(p, x)]: the last record of the
    input, in input order, that lists [x] for [p]. *)
Definition owner (data : list User) (p x : string) : option User :=
  last (filter (fun r => lists r p x) data).

(** ** The outcome of a recipient in [build_messages] *)

(** The name under which [platform_name] files an adapter class. *)
Definition name_of (c : PlatformClass) : string :=
  match c with
  | Slack => "slack"
  | Email => "email"
  end.

Section outcomes.
Context {SenderData ClientUser PlatformUser TemplatingData : Type}.
Context `{Adapters SenderData ClientUser PlatformUser} `{StrFormat}.
Context (t : UserTable) (pname : string).
Context (builder : User -> TemplatingData -> template_input).
Context (td : TemplatingData).

(** The recipient has no entry in the table for the platform. *)
Definition unresolvable (r : PlatformUser) : bool :=
  match get_user t pname (get_id r) with
  | Ok _ => false
  | Raise _ => true
  end.

(** The recipient has an entry and the builder returns [None] for it. *)
Definition unanswered (r : PlatformUser) : bool :=
  match get_user t pname (get_id r) with
  | Ok user => is_None (builder user td)
  | Raise _ => false
  end.

(** The recipient has an entry and the builder returns a value for it. *)
Definition answered (r : PlatformUser) : bool :=
  match get_user t pname (get_id r) with
  | Ok user => negb (is_None (builder user td))
  | Raise _ => false
  end.

(** The substitution that the loop attempts for an answered recipient. *)
Definition substituted (content : string) (r : PlatformUser) : result string :=
  user ← get_user t pname (get_id r);
  args ← unpack (builder user td);
  str_format content args.

(** The diagnostics of a run over [rs]: one line per unresolvable recipient. *)
Definition skip_lines (rs : list PlatformUser) : list (level * string) :=
  (fun r => (ERROR, skip_line (get_id r))) <$> filter unresolvable rs.

End outcomes.

(** ** Order of the identifiers of a platform *)

(** The identifiers that the records list for platform [p], record after
    record in input order, with repetitions. *)
Definition ids_for (data : list User) (p : string) : list string :=
  r ← data; default [] (PyDict.get r p).

(** Appends to [seen] the elements of [xs] not met before, in the order in
    which they come. *)
Definition add_new (seen xs : list string) : list string :=
  foldl (fun acc x => if decide (x ∈ acc) then acc else acc ++ [x]) seen xs.

(** The elements of [xs] in the order of their first occurrence. *)
Definition first_seen (xs : list string) : list string := add_new [] xs.

(** The keys of the identifier map of platform [p], none when the index
    does not have the platform. *)
Definition keys_at (pm : platform_map) (p : string) : list string :=
  PyDict.keys (default [] (PyDict.get pm p)).

(** ** Exceptions of the substitution *)

(** What [build_messages] raises when the substitution raised [e]. *)
Definition relabel (e : exn) : exn :=
  match e with
  | TypeError _ => TypeError "Output of template_input_builder must be a tuple."
  | _ => e
  end.

(** ** A concrete instance: recipients are their identifiers *)

(** Senders and recipients are plain strings, [basic.build_resources] finds
    the adapter class in [platform_class] and the transport accepts every
    message; [str.format] is [brace_format]. *)
Module demo.

#[export] Instance adapters : Adapters string string string := {|
  get_id := fun r => r;
  basic_build_resources := fun platform_name sender recipients content =>
    c ← PyDict.getitem platforms.platform_class platform_name;
    Ok (mkBasicResources (mkPlatform c) sender recipients content);
  transport := fun _ => Ok ()
|}.

#[export] Instance engine : StrFormat := brace_format.

Definition table : list User :=
  [[("slack", ["alice"])]; [("slack", ["bob"]); ("email", ["bob@x.com"])]].

Definition world0 : World (Message string string) := mkWorld [] [].

End demo.

Import demo.

(** A table in which two records claim the same Slack identifier. *)
Definition shared_id_table : list User :=
  [[("slack", ["x"]); ("email", ["a@x.com"])]; [("slack", ["x"])]].

(** The table that [UserTable_init] builds from [demo.table]. *)
Definition demo_slack_users : id_map :=
  [("alice", [("slack", ["alice"])]);
   ("bob", [("slack", ["bob"]); ("email", ["bob@x.com"])])].

Definition demo_table : UserTable :=
  mkUserTable demo.table
    [("slack", demo_slack_users);
     ("email",
      [("bob@x.com", [("slack", ["bob"]); ("email", ["bob@x.com"])])])].

(** A builder with data for users without an [email] entry only. *)
Definition demo_builder (user : User) (_ : ()) : template_input :=
  if PyDict.contains "email" user then PyNone else PyTuple ["Alice"].

Definition demo_recipients : list string := ["alice"; "carol"; "bob"].

(** A builder that hands back a number for the users with an [email]
    entry. *)
Definition number_builder (user : User) (_ : ()) : template_input :=
  if PyDict.contains "email" user then PyInt 3 else PyTuple ["Alice"].

(** Adapters as in [demo], with a transport that refuses the messages
    addressed to ["bob"]. *)
Definition refusing_adapters : Adapters string string string := {|
  get_id := fun r => r;
  basic_build_resources := fun platform_name sender recipients content =>
    c ← PyDict.getitem platforms.platform_class platform_name;
    Ok (mkBasicResources (mkPlatform c) sender recipients content);
  transport := fun message =>
    if decide (recipient message = "bob")
    then Raise (ValueError "refused") else Ok ()
|}.

(** A builder that has one value for every user. *)
Definition one_value_builder (user : User) (_ : ()) : template_input :=
  PyTuple ["Alice"].

(** A builder with data for every user. *)
Definition greeting_builder (user : User) (_ : ()) : template_input :=
  PyTuple ["there"].

(** The table built from the single record [{"slack": ["alice"]}]. *)
Definition slack_only_table : UserTable :=
  mkUserTable [[("slack", ["alice"])]]
    [("slack", [("alice", [("slack", ["alice"])])])].

(** * Properties *)

(** ** Dictionaries *)

Section dict_facts.
Context {K V : Type} `{EqDecision K} `{PyRepr K}.
Implicit Types (d : PyDict.dict K V) (k : K) (v : V).

Lemma get_setitem_eq d k v : PyDict.get (PyDict.setitem k v d) k = Some v.
Proof.
  induction d as [|[k' v'] d IH]; simpl.
  - by rewrite decide_True.
  - destruct (decide (k = k')) as [->|Hne]; simpl.
    + by rewrite decide_True.
    + by rewrite decide_False.
Qed.

Lemma get_setitem_ne d k k' v :
  k ≠ k' → PyDict.get (PyDict.setitem k v d) k' = PyDict.get d k'.
Proof.
  intros Hne. induction d as [|[k0 v0] d IH]; simpl.
  - by rewrite decide_False.
  - destruct (decide (k = k0)) as [->|Hk]; simpl.
    + by rewrite !(decide_False (P := k' = k0)).
    + by rewrite IH.
Qed.

Lemma get_setitem d k k' v :
  PyDict.get (PyDict.setitem k v d) k'
  = if decide (k = k') then Some v else PyDict.get d k'.
Proof.
  case_decide as Hk; [subst; apply get_setitem_eq|by apply get_setitem_ne].
Qed.

Lemma elem_of_keys d k : k ∈ PyDict.keys d ↔ is_Some (PyDict.get d k).
Proof.
  unfold PyDict.keys. induction d as [|[k' v'] d IH]; simpl.
  - split; [by intros ?%elem_of_nil|by intros [? ?]].
  - rewrite elem_of_cons, IH.
    destruct (decide (k = k')) as [->|Hne]; [by split; eauto|].
    split; [by intros [?|?]|by right].
Qed.

Lemma contains_keys d k : PyDict.contains k d = true ↔ k ∈ PyDict.keys d.
Proof.
  rewrite elem_of_keys. unfold PyDict.contains.
  destruct (PyDict.get d k); split; [by eauto|done|done|by intros [? ?]].
Qed.

(** Assignment keeps the order of the keys and appends a new key. *)
Lemma keys_setitem d k v :
  PyDict.keys (PyDict.setitem k v d)
  = if PyDict.contains k d then PyDict.keys d else PyDict.keys d ++ [k].
Proof.
  unfold PyDict.keys, PyDict.contains.
  induction d as [|[k' v'] d IH]; csimpl; [done|].
  destruct (decide (k = k')) as [->|Hne]; csimpl; [done|].
  rewrite IH. by destruct (PyDict.get d k).
Qed.

Lemma NoDup_keys_setitem d k v :
  NoDup (PyDict.keys d) → NoDup (PyDict.keys (PyDict.setitem k v d)).
Proof.
  intros Hd. rewrite keys_setitem.
  destruct (PyDict.contains k d) eqn:Hc; [done|].
  apply NoDup_app. split_and!; [done| |apply NoDup_singleton].
  intros x Hx ->%list_elem_of_singleton.
  apply contains_keys in Hx. congruence.
Qed.

Lemma getitem_Ok d k v : PyDict.getitem d k = Ok v ↔ PyDict.get d k = Some v.
Proof.
  unfold PyDict.getitem. destruct (PyDict.get d k); split; congruence.
Qed.

Lemma getitem_Raise d k e :
  PyDict.getitem d k = Raise e ↔
  PyDict.get d k = None ∧ e = KeyError (py_repr k).
Proof.
  unfold PyDict.getitem. destruct (PyDict.get d k).
  - split; [done|by intros [? _]].
  - split; [by intros [= <-]|by intros [_ ->]].
Qed.

End dict_facts.

(** ** The index built by [_build_mappings] *)

Section dict_more.
Context {K V : Type} `{EqDecision K} `{PyRepr K}.
Implicit Types (d : PyDict.dict K V) (k : K) (v : V).

Lemma setitem_setitem d k v v' :
  PyDict.setitem k v (PyDict.setitem k v' d) = PyDict.setitem k v d.
Proof.
  induction d as [|[k0 v0] d IH]; simpl.
  - by rewrite decide_True.
  - destruct (decide (k = k0)) as [->|Hne]; simpl.
    + by rewrite decide_True.
    + by rewrite decide_False, IH.
Qed.

End dict_more.

Section index_facts.
Implicit Types (user r : User) (pm : platform_map) (m : id_map).
Implicit Types (p q x : string) (ids : list string).

Lemma get_index_ids user ids m x :
  PyDict.get (index_ids user ids m) x
  = if decide (x ∈ ids) then Some user else PyDict.get m x.
Proof.
  unfold index_ids. revert m.
  induction ids as [|i ids IH]; intros m; simpl.
  - done.
  - rewrite IH, get_setitem.
    destruct (decide (x ∈ ids)) as [Hin|Hin].
    + by rewrite decide_True by (by right).
    + destruct (decide (i = x)) as [->|Hne].
      * by rewrite decide_True by (by left).
      * rewrite decide_False; [done|].
        intros [->|?]%elem_of_cons; contradiction.
Qed.

Lemma NoDup_index_ids user ids m :
  NoDup (PyDict.keys m) → NoDup (PyDict.keys (index_ids user ids m)).
Proof.
  unfold index_ids. revert m.
  induction ids as [|i ids IH]; intros m Hm; simpl; [done|].
  by apply IH, NoDup_keys_setitem.
Qed.

(** One round of [for platform in user], for a platform of the user. *)
Lemma index_platform_Ok user pm p ids :
  PyDict.get user p = Some ids →
  index_platform user pm p
  = Ok (PyDict.setitem p
          (index_ids user ids (default [] (PyDict.get pm p))) pm).
Proof.
  intros Hp. unfold index_platform, get_ids, PyDict.getitem, PyDict.contains.
  destruct (PyDict.get pm p) as [m|] eqn:Hm; simpl.
  - by rewrite Hm, Hp.
  - rewrite get_setitem_eq, Hp. simpl. by rewrite setitem_setitem.
Qed.

Lemma entry_setitem pm p q x m :
  entry (PyDict.setitem p m pm) q x
  = if decide (p = q) then PyDict.get m x else entry pm q x.
Proof.
  unfold entry. rewrite get_setitem. by case_decide.
Qed.

Lemma entry_default pm p x :
  PyDict.get (default [] (PyDict.get pm p)) x = entry pm p x.
Proof. unfold entry. by destruct (PyDict.get pm p). Qed.

Lemma distinct_ids_setitem pm p m :
  distinct_ids pm → NoDup (PyDict.keys m) →
  distinct_ids (PyDict.setitem p m pm).
Proof.
  intros Hpm Hm q m'. rewrite get_setitem.
  case_decide; [by intros [= <-]|by apply Hpm].
Qed.

Lemma distinct_ids_default pm p :
  distinct_ids pm → NoDup (PyDict.keys (default [] (PyDict.get pm p))).
Proof.
  intros Hpm. destruct (PyDict.get pm p) as [m|] eqn:Hm; simpl.
  - by apply (Hpm p).
  - apply NoDup_nil_2.
Qed.

(** The loop [for platform in user], run over platforms [ps] of the user. *)
Lemma index_platforms_spec user ps pm :
  (∀ p, p ∈ ps → is_Some (PyDict.get user p)) →
  ∃ pm',
    for_each (index_platform user) pm ps = Ok pm'
    ∧ (∀ q x, entry pm' q x
              = if decide (q ∈ ps ∧ lists user q x) then Some user
                else entry pm q x)
    ∧ (∀ q, is_Some (PyDict.get pm' q)
            ↔ q ∈ ps ∨ is_Some (PyDict.get pm q))
    ∧ (distinct_ids pm → distinct_ids pm').
Proof.
  revert pm. induction ps as [|p ps IH]; intros pm Hps.
  - exists pm. split_and!; [done| | |done].
    + intros q x. rewrite decide_False; [done|].
      by intros [?%elem_of_nil _].
    + intros q. split; [by right|]. by intros [?%elem_of_nil|].
  - destruct (Hps p) as [ids Hids]; [by left|].
    destruct (IH (PyDict.setitem p
                    (index_ids user ids (default [] (PyDict.get pm p))) pm))
      as (pm' & Hrun & Hentry & Hdom & Hdist).
    { intros p' Hp'. apply Hps. by right. }
    exists pm'. split_and!.
    + simpl. by rewrite (index_platform_Ok _ _ _ ids).
    + intros q x. rewrite Hentry, entry_setitem, get_index_ids, entry_default.
      destruct (decide (p = q)) as [<-|Hpq].
      * assert (lists user p x ↔ x ∈ ids) as Hl
          by (unfold lists; by rewrite Hids).
        destruct (decide (x ∈ ids)) as [Hx|Hx].
        -- rewrite (decide_True (P := p ∈ p :: ps ∧ _))
             by (split; [by left|tauto]).
           by case_decide.
        -- rewrite !decide_False; [done|tauto|tauto].
      * apply decide_ext. rewrite elem_of_cons. intuition congruence.
    + intros q. rewrite Hdom, get_setitem, elem_of_cons.
      case_decide; [subst; split; eauto|]. intuition congruence.
    + intros Hpm. apply Hdist, distinct_ids_setitem; [done|].
      by apply NoDup_index_ids, distinct_ids_default.
Qed.

End index_facts.

Section table_facts.
Implicit Types (user r : User) (pm : platform_map) (m : id_map).
Implicit Types (data : list User) (t : UserTable).
Implicit Types (p q x : string) (ids : list string).

Lemma lists_keys r p x : lists r p x → p ∈ PyDict.keys r.
Proof.
  unfold lists. rewrite elem_of_keys.
  destruct (PyDict.get r p); [by eauto|done].
Qed.

(** One round of [for user in self]. *)
Lemma index_user_spec pm user :
  ∃ pm',
    index_user pm user = Ok pm'
    ∧ (∀ q x, entry pm' q x
              = if decide (lists user q x) then Some user else entry pm q x)
    ∧ (∀ q, is_Some (PyDict.get pm' q)
            ↔ q ∈ PyDict.keys user ∨ is_Some (PyDict.get pm q))
    ∧ (distinct_ids pm → distinct_ids pm').
Proof.
  destruct (index_platforms_spec user (PyDict.keys user) pm)
    as (pm' & Hrun & Hentry & Hdom & Hdist).
  { intros p. by rewrite elem_of_keys. }
  exists pm'. split_and!; [done| |done|done].
  intros q x. rewrite Hentry. apply decide_ext.
  split; [tauto|]. intros Hl. split; [|done]. by eapply lists_keys.
Qed.

(** The whole of [_build_mappings], started from an index [pm]. *)
Lemma build_mappings_from pm data :
  ∃ pm',
    for_each index_user pm data = Ok pm'
    ∧ (∀ q x, entry pm' q x
              = match owner data q x with
                | Some r => Some r
                | None => entry pm q x
                end)
    ∧ (∀ q, is_Some (PyDict.get pm' q)
            ↔ (∃ r, r ∈ data ∧ q ∈ PyDict.keys r)
              ∨ is_Some (PyDict.get pm q))
    ∧ (distinct_ids pm → distinct_ids pm').
Proof.
  revert pm. induction data as [|r data IH]; intros pm.
  - exists pm. split_and!; [done|done| |done].
    intros q. split; [by right|]. intros [(r & ?%elem_of_nil & _)|]; done.
  - destruct (index_user_spec pm r) as (pm1 & Hrun1 & Hentry1 & Hdom1 & Hdist1).
    destruct (IH pm1) as (pm' & Hrun & Hentry & Hdom & Hdist).
    exists pm'. split_and!.
    + simpl. by rewrite Hrun1.
    + intros q x. rewrite Hentry, Hentry1. unfold owner.
      rewrite filter_cons. case_decide; [|done].
      rewrite last_cons. by destruct (last _).
    + intros q. rewrite Hdom, Hdom1. split.
      * intros [(r' & Hr' & Hq)|[Hq|Hq]].
        -- left. exists r'. split; [by right|done].
        -- left. exists r. split; [by left|done].
        -- by right.
      * intros [(r' & [->|Hr']%elem_of_cons & Hq)|Hq].
        -- right. by left.
        -- left. by exists r'.
        -- right. by right.
    + intros Hpm. by apply Hdist, Hdist1.
Qed.

(** [UserTable(data)] never raises, and its index holds for each pair the
    last record listing it. *)
Lemma UserTable_init_spec data :
  ∃ t,
    UserTable_init data = Ok t
    ∧ users t = data
    ∧ (∀ q x, entry (mappings t) q x = owner data q x)
    ∧ (∀ q, is_Some (PyDict.get (mappings t) q)
            ↔ ∃ r, r ∈ data ∧ q ∈ PyDict.keys r)
    ∧ distinct_ids (mappings t).
Proof.
  destruct (build_mappings_from [] data) as (pm & Hrun & Hentry & Hdom & Hdist).
  exists (mkUserTable data pm). unfold UserTable_init, _build_mappings.
  rewrite Hrun. split_and!; simpl; [done|done| | |].
  - intros q x. rewrite Hentry. by destruct (owner data q x).
  - intros q. rewrite Hdom. split; [|by left].
    intros [?|[? [=]]]; done.
  - apply Hdist. by intros p m [=].
Qed.

Lemma owner_elem_of data p x r :
  owner data p x = Some r → r ∈ data ∧ lists r p x.
Proof.
  unfold owner. intros Hr%last_Some_elem_of.
  apply list_elem_of_filter in Hr. tauto.
Qed.

Lemma owner_is_Some data p x r :
  r ∈ data → lists r p x → is_Some (owner data p x).
Proof.
  intros Hr Hl. unfold owner. apply last_is_Some.
  intros Hnil.
  by apply (filter_nil_not_elem_of (fun r' => lists r' p x) data r Hnil).
Qed.

Lemma owner_last data1 r data2 p x :
  lists r p x → Forall (fun r' => ¬ lists r' p x) data2 →
  owner (data1 ++ r :: data2) p x = Some r.
Proof.
  intros Hl Hlater. unfold owner.
  rewrite filter_app, filter_cons, decide_True by done.
  assert (filter (fun r' => lists r' p x) data2 = []) as ->.
  { induction Hlater as [|r' data2 Hr' _ IH]; [done|].
    by rewrite filter_cons, decide_False. }
  apply last_snoc.
Qed.

(** [get_user] reads the two-level entry; it can only raise [KeyError]. *)
Lemma get_user_entry t p x :
  get_user t p x
  = match entry (mappings t) p x with
    | Some r => Ok r
    | None =>
        Raise (KeyError (if PyDict.contains p (mappings t) then x else p))
    end.
Proof.
  unfold get_user, get_users, entry, PyDict.getitem, PyDict.contains.
  destruct (PyDict.get (mappings t) p) as [m|]; simpl; [|done].
  by destruct (PyDict.get m x).
Qed.

Lemma get_user_Ok t p x r :
  get_user t p x = Ok r ↔ entry (mappings t) p x = Some r.
Proof.
  rewrite get_user_entry. destruct (entry _ p x); split; congruence.
Qed.

Lemma get_user_Raise t p x e :
  get_user t p x = Raise e → ∃ k, e = KeyError k.
Proof.
  rewrite get_user_entry. destruct (entry _ p x); [done|].
  intros [= <-]. eauto.
Qed.

End table_facts.

(** ** Claims about the identity table *)

(** C6 (P1, index correctness). For a table built from any records, and any
    pair [(p, x)] listed by some record of the input, [get_user p x]
    succeeds, and the record [R] it returns is a record of the input whose
    identifier list for [p] contains [x]. *)
Theorem get_user_index_correct (data : list User) (r : User) (p x : string) :
  r ∈ data → lists r p x →
  ∃ R ids,
    (t ← UserTable_init data; get_user t p x) = Ok R
    ∧ R ∈ data
    ∧ get_ids R p = Ok ids
    ∧ x ∈ ids.
Proof.
  intros Hr Hl.
  destruct (UserTable_init_spec data) as (t & -> & _ & Hentry & _).
  destruct (owner_is_Some data p x r Hr Hl) as [R HR].
  destruct (owner_elem_of _ _ _ _ HR) as [HRin HRl].
  unfold lists in HRl. destruct (PyDict.get R p) as [ids|] eqn:Hids; [|done].
  exists R, ids. simpl. split_and!; [|done| |done].
  - apply get_user_Ok. by rewrite Hentry.
  - by apply getitem_Ok.
Qed.

Lemma get_user_index_correct_witness :
  [("slack", ["alice"])] ∈ demo.table
  ∧ lists [("slack", ["alice"])] "slack" "alice"
  ∧ ∃ R ids,
      (t ← UserTable_init demo.table; get_user t "slack" "alice") = Ok R
      ∧ R ∈ demo.table
      ∧ get_ids R "slack" = Ok ids
      ∧ "alice" ∈ ids.
Proof.
  assert ([("slack", ["alice"])] ∈ demo.table) as Hr by (by left).
  assert (lists [("slack", ["alice"])] "slack" "alice") as Hl by (by left).
  split_and!; [done|done|].
  exact (get_user_index_correct demo.table _ "slack" "alice" Hr Hl).
Defined.

(** C2 (P2, last write wins). When two records [r1] and [r2] of the input
    both list [x] for [p], [r2] coming later, and no record after [r2] lists
    [x] for [p] again, [get_user p x] returns [r2]; building the table
    raises no error. The records before, between and after the two are
    arbitrary, so [r2] is the later of the two whenever exactly these two
    list the pair. *)
Theorem get_user_last_write_wins
    (data1 data2 data3 : list User) (r1 r2 : User) (p x : string) :
  lists r1 p x → lists r2 p x →
  Forall (fun r => ¬ lists r p x) data3 →
  (t ← UserTable_init (data1 ++ r1 :: data2 ++ r2 :: data3); get_user t p x)
  = Ok r2.
Proof.
  intros _ Hl2 Hlater.
  destruct (UserTable_init_spec (data1 ++ r1 :: data2 ++ r2 :: data3))
    as (t & -> & _ & Hentry & _).
  simpl. apply get_user_Ok. rewrite Hentry.
  replace (data1 ++ r1 :: data2 ++ r2 :: data3)
    with ((data1 ++ r1 :: data2) ++ r2 :: data3)
    by (by rewrite <-app_assoc).
  by apply owner_last.
Qed.

Lemma get_user_last_write_wins_witness :
  lists [("slack", ["x"]); ("email", ["a@x.com"])] "slack" "x"
  ∧ lists [("slack", ["x"])] "slack" "x"
  ∧ (t ← UserTable_init shared_id_table; get_user t "slack" "x")
    = Ok [("slack", ["x"])].
Proof.
  assert (lists [("slack", ["x"]); ("email", ["a@x.com"])] "slack" "x")
    as H1 by (by left).
  assert (lists [("slack", ["x"])] "slack" "x") as H2 by (by left).
  split_and!; [done|done|].
  exact (get_user_last_write_wins [] [] [] _ _ "slack" "x" H1 H2
           (Forall_nil_2 _)).
Defined.

(** C10, as stated, fails on [shared_id_table]: its first record lists
    [("slack", "x")] and has an [email] list, but [get_user "slack" "x"]
    returns the second record, which has none. *)
Lemma get_user_earlier_lister_counterexample :
  ¬ (∀ r p x q ids,
       r ∈ shared_id_table → lists r p x →
       q ≠ p → PyDict.get r q = Some ids →
       (t ← UserTable_init shared_id_table; R ← get_user t p x; get_ids R q)
       = Ok ids).
Proof.
  intros Hclaim.
  specialize (Hclaim [("slack", ["x"]); ("email", ["a@x.com"])]
                "slack" "x" "email" ["a@x.com"]).
  discriminate Hclaim; [by left|by left|done|done].
Qed.

(** C10, amended. For any pair [(p, x)] listed in the input, [get_user p x]
    returns the last record [r] of the input that lists the pair, whole: it
    has the platforms of [r] in the same order, and for every platform [q],
    queried or not, the identifier list of the returned record is that of
    [r]. The index does not project records to the queried platform. *)
Theorem get_user_whole_record
    (data1 data2 : list User) (r : User) (p x : string) :
  lists r p x → Forall (fun r' => ¬ lists r' p x) data2 →
  ∃ R,
    (t ← UserTable_init (data1 ++ r :: data2); get_user t p x) = Ok R
    ∧ PyDict.keys R = PyDict.keys r
    ∧ (∀ q, get_ids R q = get_ids r q)
    ∧ (∀ q ids, PyDict.get r q = Some ids → get_ids R q = Ok ids).
Proof.
  intros Hl Hlater. exists r.
  destruct (UserTable_init_spec (data1 ++ r :: data2))
    as (t & -> & _ & Hentry & _).
  simpl. split_and!; [|done|done|].
  - apply get_user_Ok. rewrite Hentry. by apply owner_last.
  - intros q ids Hq. by apply getitem_Ok.
Qed.

Lemma get_user_whole_record_witness :
  lists [("slack", ["bob"]); ("email", ["bob@x.com"])] "slack" "bob"
  ∧ ∃ R,
      (t ← UserTable_init demo.table; get_user t "slack" "bob") = Ok R
      ∧ PyDict.keys R = ["slack"; "email"]
      ∧ (∀ q, get_ids R q
              = get_ids [("slack", ["bob"]); ("email", ["bob@x.com"])] q)
      ∧ (∀ q ids,
           PyDict.get [("slack", ["bob"]); ("email", ["bob@x.com"])] q
           = Some ids →
           get_ids R q = Ok ids).
Proof.
  assert (lists [("slack", ["bob"]); ("email", ["bob@x.com"])] "slack" "bob")
    as Hl by (by left).
  split; [done|].
  exact (get_user_whole_record [[("slack", ["alice"])]] [] _ "slack" "bob"
           Hl (Forall_nil_2 _)).
Defined.

Lemma get_unrecognized_Ok (t : UserTable) (p : string) (m : id_map)
    (usernames : list string) :
  get_users t p = Ok m →
  get_unrecognized t p usernames
  = Ok (filter (fun x => x ∉ PyDict.keys m) usernames).
Proof.
  intros Hm. induction usernames as [|x usernames IH]; [done|].
  simpl. rewrite Hm, IH. simpl. rewrite filter_cons.
  destruct (PyDict.contains x m) eqn:Hx; simpl.
  - apply contains_keys in Hx. by rewrite decide_False by tauto.
  - rewrite decide_True; [done|].
    intros Hin%contains_keys. congruence.
Qed.

(** C7 (P3, unrecognized filter). On a table that knows platform [p], with
    [m] the mapping that [get_users p] returns, [get_unrecognized p ids]
    returns exactly the elements of [ids] that are not keys of [m], in the
    order of [ids]; the result is a subsequence of [ids] and shares no
    element with the keys of [m]. The method is a function of the table and
    returns nothing but this list: it has no table to hand back changed. *)
Theorem get_unrecognized_filter (t : UserTable) (p : string) (m : id_map)
    (ids : list string) :
  get_users t p = Ok m →
  ∃ out,
    get_unrecognized t p ids = Ok out
    ∧ out = filter (fun x => x ∉ PyDict.keys m) ids
    ∧ out `sublist_of` ids
    ∧ (∀ x, x ∈ out ↔ x ∈ ids ∧ x ∉ PyDict.keys m)
    ∧ (∀ x, x ∈ out → x ∉ PyDict.keys m).
Proof.
  intros Hm. eexists. split; [by apply get_unrecognized_Ok|].
  split_and!; [done|apply sublist_filter| |].
  - intros x. rewrite list_elem_of_filter. tauto.
  - intros x. rewrite list_elem_of_filter. tauto.
Qed.

Lemma demo_table_built : UserTable_init demo.table = Ok demo_table.
Proof. reflexivity. Qed.

Lemma get_unrecognized_filter_witness :
  UserTable_init demo.table = Ok demo_table
  ∧ get_users demo_table "slack" = Ok demo_slack_users
  ∧ ∃ out,
      get_unrecognized demo_table "slack" ["carol"; "bob"; "dave"] = Ok out
      ∧ out = filter (fun x => x ∉ PyDict.keys demo_slack_users)
                ["carol"; "bob"; "dave"]
      ∧ out `sublist_of` ["carol"; "bob"; "dave"]
      ∧ (∀ x, x ∈ out
              ↔ x ∈ ["carol"; "bob"; "dave"]
                ∧ x ∉ PyDict.keys demo_slack_users)
      ∧ (∀ x, x ∈ out → x ∉ PyDict.keys demo_slack_users).
Proof.
  split; [reflexivity|]. split; [reflexivity|].
  apply (get_unrecognized_filter demo_table "slack" demo_slack_users).
  reflexivity.
Defined.

Lemma get_users_unknown (data : list User) (t : UserTable) (p : string) :
  UserTable_init data = Ok t →
  (∀ r, r ∈ data → p ∉ PyDict.keys r) →
  get_users t p = Raise (KeyError p).
Proof.
  intros Ht Hp.
  destruct (UserTable_init_spec data) as (t' & Ht' & _ & _ & Hdom & _).
  rewrite Ht in Ht'. injection Ht' as <-.
  apply getitem_Raise. split; [|done].
  apply eq_None_not_Some. rewrite Hdom.
  intros (r & Hr & Hin). by apply (Hp r).
Qed.

Lemma get_users_known (data : list User) (t : UserTable) (p : string) :
  UserTable_init data = Ok t →
  (∃ r, r ∈ data ∧ p ∈ PyDict.keys r) →
  ∃ m, get_users t p = Ok m
       ∧ NoDup (PyDict.keys m)
       ∧ ∀ x, x ∈ PyDict.keys m ↔ ∃ r, r ∈ data ∧ lists r p x.
Proof.
  intros Ht Hp.
  destruct (UserTable_init_spec data) as (t' & Ht' & _ & Hentry & Hdom & Hdist).
  rewrite Ht in Ht'. injection Ht' as <-.
  apply Hdom in Hp as [m Hm]. exists m. split_and!.
  - by apply getitem_Ok.
  - by apply (Hdist p).
  - intros x. rewrite elem_of_keys.
    specialize (Hentry p x). unfold entry in Hentry. rewrite Hm in Hentry.
    simpl in Hentry. rewrite Hentry. split.
    + intros [r Hr]. exists r. by apply owner_elem_of.
    + intros (r & Hr & Hl). by eapply owner_is_Some.
Qed.

(** C8. On a table built from records none of which has platform [p],
    [get_unrecognized p []] returns the empty list, while
    [get_unrecognized p ids] with a non-empty [ids] raises the [KeyError] of
    the platform lookup. *)
Theorem get_unrecognized_unknown_platform (data : list User) (p : string) :
  (∀ r, r ∈ data → p ∉ PyDict.keys r) →
  ∃ t,
    UserTable_init data = Ok t
    ∧ get_unrecognized t p [] = Ok []
    ∧ ∀ x ids, get_unrecognized t p (x :: ids) = Raise (KeyError p).
Proof.
  intros Hp.
  destruct (UserTable_init_spec data) as (t & Ht & _).
  exists t. split_and!; [done|done|].
  intros x ids. simpl. by rewrite (get_users_unknown data t p Ht Hp).
Qed.

Lemma get_unrecognized_unknown_platform_witness :
  (∀ r, r ∈ demo.table → "irc" ∉ PyDict.keys r)
  ∧ ∃ t,
      UserTable_init demo.table = Ok t
      ∧ get_unrecognized t "irc" [] = Ok []
      ∧ ∀ x ids,
          get_unrecognized t "irc" (x :: ids) = Raise (KeyError "irc").
Proof.
  assert (∀ r, r ∈ demo.table → "irc" ∉ PyDict.keys r) as Hp.
  { apply Forall_forall.
    repeat constructor; apply (bool_decide_unpack _); by vm_compute. }
  split; [done|].
  exact (get_unrecognized_unknown_platform demo.table "irc" Hp).
Defined.

(** ** The message assembler *)

Lemma platform_name_getitem (c : PlatformClass) :
  PyDict.getitem platform_name c = Ok (name_of c).
Proof. by destruct c. Qed.

(** A loop over [l1 ++ l2] is the loop over [l1] followed, unless that
    raised, by the loop over [l2]. *)
Lemma for_each_app {Msg A S : Type} (body : S -> A -> M Msg S) (s : S)
    (l1 l2 : list A) (w : World Msg) :
  for_each body s (l1 ++ l2) w
  = match for_each body s l1 w with
    | (Ok s', w') => for_each body s' l2 w'
    | (Raise e, w') => (Raise e, w')
    end.
Proof.
  revert s w. induction l1 as [|x l1 IH]; intros s w; [done|].
  simpl. unfold mbind, M_bind.
  destruct (body s x w) as [[s'|e] w']; [apply IH|done].
Qed.

Section assembler.
Context {SenderData ClientUser PlatformUser TemplatingData : Type}.
Context `{Adapters SenderData ClientUser PlatformUser} `{StrFormat}.
Context (t : UserTable) (pname : string).
Context (builder : User -> TemplatingData -> template_input).
Context (td : TemplatingData).

Local Abbreviation Msg := (Message ClientUser PlatformUser).

Lemma fill_message_step (acc : list Msg) (sender : ClientUser)
    (r : PlatformUser) (content : string) (w : World Msg) :
  fill_message pname td t builder acc (mkMessage sender r content) w
  = match get_user t pname (get_id r) with
    | Raise _ =>
        (Ok acc, mkWorld (log w ++ [(ERROR, skip_line (get_id r))]) (outbox w))
    | Ok user =>
        if is_None (builder user td) then (Ok acc, w)
        else
          match args ← unpack (builder user td); str_format content args with
          | Ok s => (Ok (acc ++ [mkMessage sender r s]), w)
          | Raise (TypeError _) =>
              (Raise (TypeError
                        "Output of template_input_builder must be a tuple."), w)
          | Raise e => (Raise e, w)
          end
    end.
Proof.
  unfold fill_message. simpl.
  destruct (get_user t pname (get_id r)) as [user|e] eqn:Hu.
  - destruct (is_None (builder user td)); [done|].
    destruct (_ ≫= _) as [s|[]]; done.
  - by destruct (get_user_Raise _ _ _ _ Hu) as [k ->].
Qed.

Lemma kinds_partition (rs : list PlatformUser) :
  length (filter (unresolvable t pname) rs)
  + length (filter (unanswered t pname builder td) rs)
  + length (filter (answered t pname builder td) rs) = length rs.
Proof.
  induction rs as [|r rs IH]; [done|].
  rewrite !filter_cons. unfold unresolvable, unanswered, answered in *.
  destruct (get_user t pname (get_id r)) as [user|e]; simpl.
  - destruct (is_None (builder user td)); simpl; lia.
  - lia.
Qed.

(** The loop of [build_messages], entered with [acc] already collected. *)
Lemma fill_loop_Ok (sender : ClientUser) (content : string)
    (rs : list PlatformUser) (acc msgs : list Msg) (w w' : World Msg) :
  for_each (fill_message pname td t builder) acc
    (basic_build_messages sender rs content) w = (Ok msgs, w') →
  ∃ new,
    msgs = acc ++ new
    ∧ recipient <$> new = filter (answered t pname builder td) rs
    ∧ Forall (fun m =>
                templated.sender m = sender
                ∧ substituted t pname builder td content (recipient m)
                  = Ok (templated.content m)) new
    ∧ w' = mkWorld (log w ++ skip_lines t pname rs) (outbox w).
Proof.
  revert acc w. induction rs as [|r rs IH]; intros acc w Hrun.
  - injection Hrun as <- <-. exists []. unfold skip_lines. simpl.
    rewrite !app_nil_r. by destruct w.
  - simpl in Hrun. unfold mbind, M_bind in Hrun.
    rewrite fill_message_step in Hrun.
    unfold skip_lines, answered, unresolvable, substituted in *.
    rewrite !filter_cons.
    destruct (get_user t pname (get_id r)) as [user|e] eqn:Hu; simpl.
    + destruct (is_None (builder user td)) eqn:Hnone; simpl.
      * by apply IH in Hrun.
      * destruct (_ ≫= _) as [s|e] eqn:Hs; [|by destruct e].
        apply IH in Hrun as (new & -> & Hrec & Hall & ->).
        exists (mkMessage sender r s :: new). split_and!.
        -- by rewrite <-app_assoc.
        -- csimpl. by rewrite Hrec.
        -- constructor; [|done]. simpl. by rewrite Hu.
        -- done.
    + apply IH in Hrun as (new & -> & Hrec & Hall & ->).
      exists new. split_and!; [done|done|done|].
      simpl. by rewrite <-app_assoc.
Qed.

(** When every answered recipient gets a value that the template accepts,
    the loop runs to its end. *)
Lemma fill_loop_total (sender : ClientUser) (content : string)
    (rs : list PlatformUser) (acc : list Msg) (w : World Msg) :
  (∀ r, r ∈ rs → answered t pname builder td r = true →
        ∃ s, substituted t pname builder td content r = Ok s) →
  ∃ msgs w',
    for_each (fill_message pname td t builder) acc
      (basic_build_messages sender rs content) w = (Ok msgs, w').
Proof.
  revert acc w. induction rs as [|r rs IH]; intros acc w Hvalid.
  - by exists acc, w.
  - simpl. unfold mbind, M_bind. rewrite fill_message_step.
    assert (∀ r', r' ∈ rs → answered t pname builder td r' = true →
                  ∃ s, substituted t pname builder td content r' = Ok s)
      as Hrest.
    { intros r' Hr'. apply Hvalid. by right. }
    specialize (Hvalid r (list_elem_of_here _ _)).
    unfold answered, substituted in Hvalid.
    destruct (get_user t pname (get_id r)) as [user|e]; simpl in *.
    + destruct (is_None (builder user td)); simpl in *; [by apply IH|].
      destruct Hvalid as [s ->]; [done|]. by apply IH.
    + by apply IH.
Qed.

End assembler.

Section assembler_claims.
Context {SenderData ClientUser PlatformUser TemplatingData : Type}.
Context `{Adapters SenderData ClientUser PlatformUser} `{StrFormat}.
Implicit Types (platform : Platform) (sender : ClientUser).
Implicit Types (rs : list PlatformUser) (content : string).
Implicit Types (td : TemplatingData) (t : UserTable).
Implicit Types (builder : User -> TemplatingData -> template_input).
Implicit Types (w : World (Message ClientUser PlatformUser)).

(** The lookup of the platform name never fails for an adapter class, so
    [build_messages] is its loop run under that name. *)
Lemma build_messages_loop platform sender rs content td t builder w :
  build_messages platform sender rs content td t builder w
  = for_each (fill_message (name_of (type platform)) td t builder) []
      (basic_build_messages sender rs content) w.
Proof.
  unfold build_messages, mbind, M_bind, lift.
  by rewrite platform_name_getitem.
Qed.

(** C3, amended (P4, skip on missing identity). A recipient without an
    entry in the table for the platform is skipped: the loop body leaves the
    messages collected so far as they are, logs one error line and returns
    normally. Suppose moreover that for every recipient that has an entry
    and for which the builder returns a value, the substitution succeeds:
    that value unpacks and the template accepts it (a sequence alone is not
    enough: the template may ask for more values than the sequence has).
    Then [build_messages] returns a list; it logs one error
    line for each recipient without an entry, in order, and nothing else; no
    message of the list is addressed to a recipient without an entry; and
    the length of the list is the number of recipients less those without
    an entry less those for which the builder returned [None]. *)
Theorem build_messages_skips_unresolvable
    platform sender rs content td t builder w :
  let pname := name_of (type platform) in
  (∀ r acc, unresolvable t pname r = true →
     fill_message pname td t builder acc (mkMessage sender r content) w
     = (Ok acc,
        mkWorld (log w ++ [(ERROR, skip_line (get_id r))]) (outbox w)))
  ∧ ((∀ r, r ∈ rs → answered t pname builder td r = true →
           ∃ s, substituted t pname builder td content r = Ok s) →
     ∃ msgs,
       build_messages platform sender rs content td t builder w
       = (Ok msgs, mkWorld (log w ++ skip_lines t pname rs) (outbox w))
       ∧ length (skip_lines t pname rs)
         = length (filter (unresolvable t pname) rs)
       ∧ (∀ r, unresolvable t pname r = true → r ∉ recipient <$> msgs)
       ∧ length msgs + length (filter (unresolvable t pname) rs)
         + length (filter (unanswered t pname builder td) rs) = length rs
       ∧ length msgs
         = length rs - length (filter (unresolvable t pname) rs)
           - length (filter (unanswered t pname builder td) rs)).
Proof.
  intros pname. split.
  { intros r acc Hr. rewrite fill_message_step. unfold unresolvable in Hr.
    by destruct (get_user t pname (get_id r)). }
  intros Hvalid.
  destruct (fill_loop_total t pname builder td sender content rs [] w Hvalid)
    as (msgs & w' & Hrun).
  pose proof Hrun as Hrun'.
  apply fill_loop_Ok in Hrun' as (new & -> & Hrec & _ & ->).
  exists new. rewrite build_messages_loop. fold pname. simpl in *.
  pose proof (kinds_partition t pname builder td rs) as Hparts.
  assert (length new = length (filter (answered t pname builder td) rs))
    as Hlen by (by rewrite <-Hrec, length_fmap).
  split_and!; [done| | |lia|lia].
  - unfold skip_lines. by rewrite length_fmap.
  - intros r Hr. rewrite Hrec, list_elem_of_filter.
    unfold answered, unresolvable in *. intros [Ha _].
    destruct (get_user t pname (get_id r)); [done|]. by apply Ha.
Qed.

(** C5, amended (P5, order preservation). Whenever [build_messages]
    returns a list, it is no longer than the recipient list; its recipients
    are exactly the answered recipients (those with an entry for which the
    builder returned a value), each occurrence once and in the order of the
    input, so they form a subsequence of the input; and every message has the
    given sender and the content substituted for its recipient. Recipients
    with an entry for which the builder returned [None] have no message. *)
Theorem build_messages_order_preserved
    platform sender rs content td t builder w msgs w' :
  let pname := name_of (type platform) in
  build_messages platform sender rs content td t builder w = (Ok msgs, w') →
  (length msgs ≤ length rs)%nat
  ∧ recipient <$> msgs = filter (answered t pname builder td) rs
  ∧ (recipient <$> msgs) `sublist_of` rs
  ∧ Forall (fun m =>
              templated.sender m = sender
              ∧ substituted t pname builder td content (recipient m)
                = Ok (templated.content m)) msgs.
Proof.
  intros pname. rewrite build_messages_loop. fold pname.
  intros (new & -> & Hrec & Hall & _)%fill_loop_Ok. simpl.
  split_and!; [|done| |done].
  - rewrite <-(length_fmap recipient), Hrec. apply length_filter.
  - rewrite Hrec. apply sublist_filter.
Qed.

(** A value that cannot be unpacked is fatal for the batch: the run raises
    the [TypeError] of [build_messages] at the first such recipient and
    returns no list, whatever was collected before. *)
Lemma build_messages_rejects_non_iterable
    platform sender rs1 (r : PlatformUser) rs2 content td t builder w
    msgs1 w1 (user : User) (n : Z) :
  build_messages platform sender rs1 content td t builder w = (Ok msgs1, w1) →
  get_user t (name_of (type platform)) (get_id r) = Ok user →
  builder user td = PyInt n →
  build_messages platform sender (rs1 ++ r :: rs2) content td t builder w
  = (Raise (TypeError "Output of template_input_builder must be a tuple."),
     w1).
Proof.
  rewrite !build_messages_loop. intros Hrun Hu Hb.
  unfold basic_build_messages in *.
  rewrite map_app, for_each_app, Hrun. simpl. unfold mbind, M_bind.
  change (mkMessage sender r content :: _)
    with (mkMessage sender r content
          :: basic_build_messages sender rs2 content).
  by rewrite fill_message_step, Hu, Hb.
Qed.

End assembler_claims.

(** ** The assembler on the demonstration table *)

Lemma build_messages_skips_unresolvable_witness :
  (∀ r, r ∈ demo_recipients →
        answered demo_table "slack" demo_builder () r = true →
        ∃ s, substituted demo_table "slack" demo_builder () "Hi {}" r = Ok s)
  ∧ (∀ r acc, unresolvable demo_table "slack" r = true →
       fill_message "slack" () demo_table demo_builder acc
         (mkMessage "me" r "Hi {}") demo.world0
       = (Ok acc, mkWorld [(ERROR, skip_line r)] []))
  ∧ ∃ msgs,
      build_messages (mkPlatform Slack) "me" demo_recipients "Hi {}" ()
        demo_table demo_builder demo.world0
      = (Ok msgs,
         mkWorld
           [(ERROR,
             "Skipping user 'carol' because no user table entry was found")]
           [])
      ∧ length (skip_lines demo_table "slack" demo_recipients) = 1
      ∧ (∀ r, unresolvable demo_table "slack" r = true →
              r ∉ recipient <$> msgs)
      ∧ length msgs + 1 + 1 = 3
      ∧ length msgs = 3 - 1 - 1.
Proof.
  assert (∀ r, r ∈ demo_recipients →
            answered demo_table "slack" demo_builder () r = true →
            ∃ s, substituted demo_table "slack" demo_builder () "Hi {}" r
                 = Ok s)
    as Hvalid.
  { intros r Hr. unfold demo_recipients in Hr.
    rewrite !elem_of_cons, elem_of_nil in Hr.
    destruct Hr as [->|[->|[->|[]]]]; vm_compute; intros Ha;
      try discriminate Ha.
    by eexists. }
  destruct (build_messages_skips_unresolvable (mkPlatform Slack) "me"
              demo_recipients "Hi {}" () demo_table demo_builder demo.world0)
    as [Hskip Hrun].
  split; [exact Hvalid|]. split; [exact Hskip|]. exact (Hrun Hvalid).
Defined.

(** C3, as stated, fails where the builder returns a sequence that is too
    short for the template: for ["alice"] the builder returns the tuple
    [("Alice",)], the template has two fields, the substitution raises
    [IndexError], which [build_messages] does not catch, and the run returns
    no list at all, so its length is not the two recipients less the one
    without an entry. *)
Lemma build_messages_short_sequence_counterexample :
  ¬ ((∀ r user,
        r ∈ ["alice"; "carol"] →
        get_user demo_table "slack" r = Ok user →
        is_None (one_value_builder user ()) = false →
        ∃ items, one_value_builder user () = PyTuple items) →
     ∃ msgs w',
       build_messages (mkPlatform Slack) "me" ["alice"; "carol"] "Hi {} {}"
         () demo_table one_value_builder demo.world0 = (Ok msgs, w')
       ∧ length msgs
         = length ["alice"; "carol"]
           - length (filter (unresolvable demo_table "slack")
                       ["alice"; "carol"])
           - length (filter (unanswered demo_table "slack"
                               one_value_builder ())
                       ["alice"; "carol"])).
Proof.
  intros Hclaim. destruct Hclaim as (msgs & w' & Hrun & _).
  - intros r user _ _ _. by exists ["Alice"].
  - discriminate Hrun.
Qed.

Lemma build_messages_order_preserved_witness :
  build_messages (mkPlatform Slack) "me" demo_recipients "Hi {}" ()
    demo_table demo_builder demo.world0
  = (Ok [mkMessage "me" "alice" "Hi Alice"],
     mkWorld
       [(ERROR, "Skipping user 'carol' because no user table entry was found")]
       [])
  ∧ (length [mkMessage "me" "alice" "Hi Alice"]
     ≤ length demo_recipients)%nat
  ∧ recipient <$> [mkMessage "me" "alice" "Hi Alice"]
    = filter (answered demo_table "slack" demo_builder ()) demo_recipients
  ∧ (recipient <$> [mkMessage "me" "alice" "Hi Alice"])
      `sublist_of` demo_recipients
  ∧ Forall (fun m =>
              sender m = "me"
              ∧ substituted demo_table "slack" demo_builder () "Hi {}"
                  (recipient m)
                = Ok (content m))
      [mkMessage "me" "alice" "Hi Alice"].
Proof.
  split; [reflexivity|].
  apply (build_messages_order_preserved (mkPlatform Slack) "me"
           demo_recipients "Hi {}" () demo_table demo_builder demo.world0
           [mkMessage "me" "alice" "Hi Alice"]
           (mkWorld [(ERROR, skip_line "carol")] [])).
  reflexivity.
Defined.

(** C5, as stated, fails where the builder has no data: ["bob"] has an
    entry in the table, yet the run returns no message for it. *)
Lemma build_messages_entry_without_message :
  ¬ (∀ msgs w',
       build_messages (mkPlatform Slack) "me" ["bob"] "Hi {}" ()
         demo_table demo_builder demo.world0 = (Ok msgs, w') →
       ∀ r, r ∈ ["bob"] → unresolvable demo_table "slack" r = false →
            length (filter (fun m => recipient m = r) msgs) = 1).
Proof.
  intros Hclaim.
  specialize (Hclaim [] demo.world0 eq_refl "bob").
  discriminate Hclaim; [by left|reflexivity].
Qed.

(** Iterating a string yields its characters, whatever the number of
    bytes that encode each. *)
Lemma chars_code_points : chars "né€b" = ["n"; "é"; "€"; "b"].
Proof. reflexivity. Qed.

(** C1 fails on the code: a builder that returns the string ["Alice"]
    raises nothing. The string is unpacked into its characters, the template
    with two fields takes the first two, and the run returns one message. *)
Theorem build_messages_takes_str_for_tuple :
  build_messages (mkPlatform Slack) "me" ["alice"] "Hi {} {}" ()
    demo_table (fun _ _ => PyStr "Alice") demo.world0
  = (Ok [mkMessage "me" "alice" "Hi A l"], demo.world0).
Proof. reflexivity. Qed.

(** With more fields than the string has characters the run does raise,
    but the [IndexError] of the substitution, which [build_messages] does
    not catch, and not its own [TypeError]. *)
Lemma build_messages_str_too_short :
  build_messages (mkPlatform Slack) "me" ["alice"] "{}{}{}{}{}{}" ()
    demo_table (fun _ _ => PyStr "Alice") demo.world0
  = (Raise (IndexError
              "Replacement index out of range for positional args tuple"),
     demo.world0).
Proof. reflexivity. Qed.

(** ** Recipient resolution in [build_resources] *)

Section dispatch_claims.
Context {SenderData ClientUser PlatformUser TemplatingData : Type}.
Context `{Adapters SenderData ClientUser PlatformUser} `{StrFormat}.
Implicit Types (sender_data : SenderData) (content : string).
Implicit Types (td : TemplatingData) (t : UserTable) (data : list User).
Implicit Types (builder : User -> TemplatingData -> template_input).
Implicit Types (w : World (Message ClientUser PlatformUser)).

Lemma resolve_recipients_nonempty t p (rd : list string) w :
  rd ≠ [] →
  resolve_recipients (ClientUser := ClientUser) (PlatformUser := PlatformUser)
    t p rd w = (Ok rd, w).
Proof. intros Hrd. unfold resolve_recipients. by rewrite decide_False. Qed.

Lemma resolve_recipients_empty t p w :
  resolve_recipients (ClientUser := ClientUser) (PlatformUser := PlatformUser)
    t p [] w
  = (PyDict.keys <$> get_users t p,
     mkWorld (log w ++ [(DEBUG, default_line)]) (outbox w)).
Proof.
  unfold resolve_recipients, mbind, M_bind, lift. simpl.
  by destruct (get_users t p).
Qed.

Lemma build_resources_unfold
    p sender_data (rd : list string) content td data t w :
  UserTable_init data = Ok t →
  build_resources p sender_data rd content td data w
  = match resolve_recipients t p rd w with
    | (Ok rd', w') =>
        (b ← basic_build_resources p sender_data rd' content;
         Ok (mkResources b td t), w')
    | (Raise e, w') => (Raise e, w')
    end.
Proof.
  intros Ht. unfold build_resources, mbind at 1 2, M_bind, lift. rewrite Ht.
  destruct (resolve_recipients t p rd w) as [[rd'|e] w']; [|done].
  by destruct (basic_build_resources p sender_data rd' content).
Qed.

(** C4 (P6, default expansion). The table is built without error. The
    empty list is resolved to the keys of what [get_users] returns for the
    platform, and to its exception when it raises. A non-empty
    [recipients_data] is resolved to itself and reaches
    [basic.build_resources] as it is, with nothing logged. When [get_users]
    returns the mapping [m], the empty list reaches [basic.build_resources]
    as the keys of [m]; these keys are pairwise distinct and are exactly the
    identifiers that some record of the input lists for the platform. *)
Theorem build_resources_recipients
    (platform_name : string) sender_data (recipients_data : list string)
    content td data w :
  ∃ t,
    UserTable_init data = Ok t
    ∧ resolve_recipients t platform_name [] w
      = (PyDict.keys <$> get_users t platform_name,
         mkWorld (log w ++ [(DEBUG, default_line)]) (outbox w))
    ∧ (recipients_data ≠ [] →
       resolve_recipients t platform_name recipients_data w
       = (Ok recipients_data, w)
       ∧ build_resources platform_name sender_data recipients_data content
           td data w
         = (b ← basic_build_resources platform_name sender_data
                  recipients_data content;
            Ok (mkResources b td t), w))
    ∧ (∀ m, get_users t platform_name = Ok m →
         let w1 := mkWorld (log w ++ [(DEBUG, default_line)]) (outbox w) in
         resolve_recipients t platform_name [] w = (Ok (PyDict.keys m), w1)
         ∧ build_resources platform_name sender_data [] content td data w
           = (b ← basic_build_resources platform_name sender_data
                    (PyDict.keys m) content;
              Ok (mkResources b td t), w1)
         ∧ NoDup (PyDict.keys m)
         ∧ ∀ x, x ∈ PyDict.keys m
                ↔ ∃ r, r ∈ data ∧ lists r platform_name x).
Proof.
  destruct (UserTable_init_spec data) as (t & Ht & _ & _ & Hdom & _).
  exists t. split_and!; [done|apply resolve_recipients_empty| |].
  - intros Hrd. split; [by apply resolve_recipients_nonempty|].
    rewrite (build_resources_unfold _ _ _ _ _ _ t) by done.
    by rewrite resolve_recipients_nonempty.
  - intros m Hm w1.
    assert (resolve_recipients (ClientUser := ClientUser)
              (PlatformUser := PlatformUser) t platform_name [] w
            = (Ok (PyDict.keys m), w1)) as Hres
      by (by rewrite resolve_recipients_empty, Hm).
    destruct (get_users_known data t platform_name Ht)
      as (m' & Hm' & Hnd & Hin).
    { apply Hdom. apply getitem_Ok in Hm. by eexists. }
    rewrite Hm in Hm'. injection Hm' as <-.
    split_and!; [done| |done|done].
    rewrite (build_resources_unfold _ _ _ _ _ _ t) by done.
    by rewrite Hres.
Qed.

(** C9. When the caller gives no recipients and no record of the user
    table data has the platform, resolution raises the [KeyError] of
    [get_users]: [build_resources] raises it before it reaches
    [basic.build_resources], and [send_to_all] raises it having logged the
    one debug line and sent nothing. *)
Theorem build_resources_unknown_platform
    (platform_name : string) sender_data content td data builder w :
  (∀ r, r ∈ data → platform_name ∉ PyDict.keys r) →
  let w1 := mkWorld (log w ++ [(DEBUG, default_line)]) (outbox w) in
  (∃ t, UserTable_init data = Ok t
        ∧ get_users t platform_name = Raise (KeyError platform_name)
        ∧ resolve_recipients t platform_name [] w
          = (Raise (KeyError platform_name), w1))
  ∧ build_resources platform_name sender_data [] content td data w
    = (Raise (KeyError platform_name), w1)
  ∧ send_to_all platform_name sender_data [] content td data builder w
    = (Raise (KeyError platform_name), w1).
Proof.
  intros Hp w1.
  destruct (UserTable_init_spec data) as (t & Ht & _).
  pose proof (get_users_unknown data t platform_name Ht Hp) as Hu.
  assert (resolve_recipients (ClientUser := ClientUser)
            (PlatformUser := PlatformUser) t platform_name [] w
          = (Raise (KeyError platform_name), w1)) as Hres
    by (by rewrite resolve_recipients_empty, Hu).
  assert (build_resources platform_name sender_data [] content td data w
          = (Raise (KeyError platform_name), w1)) as Hbuild.
  { rewrite (build_resources_unfold _ _ _ _ _ _ t) by done. by rewrite Hres. }
  split_and!; [by exists t|done|].
  unfold send_to_all, mbind, M_bind. by rewrite Hbuild.
Qed.

End dispatch_claims.

Lemma build_resources_recipients_witness :
  (["carol"] ≠ []
   ∧ build_resources "slack" "me" ["carol"] "Hi {}" () demo.table demo.world0
     = (Ok (mkResources
              (mkBasicResources (mkPlatform Slack) "me" ["carol"] "Hi {}")
              () demo_table),
        demo.world0))
  ∧ (get_users demo_table "slack" = Ok demo_slack_users
     ∧ build_resources "slack" "me" [] "Hi {}" () demo.table demo.world0
       = (Ok (mkResources
                (mkBasicResources (mkPlatform Slack) "me" ["alice"; "bob"]
                   "Hi {}")
                () demo_table),
          mkWorld [(DEBUG, default_line)] [])).
Proof.
  destruct (build_resources_recipients "slack" "me" ["carol"] "Hi {}" ()
              demo.table demo.world0) as (t & Ht & _ & Hgiven & _).
  destruct (build_resources_recipients "slack" "me" [] "Hi {}" ()
              demo.table demo.world0) as (t' & Ht' & _ & _ & Hdefault).
  change (Ok demo_table = Ok t) in Ht. injection Ht as <-.
  change (Ok demo_table = Ok t') in Ht'. injection Ht' as <-.
  assert (["carol"] ≠ []) as Hne by done.
  split.
  - split; [done|]. by destruct (Hgiven Hne) as [_ ->].
  - split; [reflexivity|].
    by destruct (Hdefault demo_slack_users eq_refl) as (_ & -> & _).
Defined.

Lemma build_resources_unknown_platform_witness :
  (∀ r, r ∈ demo.table → "irc" ∉ PyDict.keys r)
  ∧ build_resources "irc" "me" [] "Hi {}" () demo.table demo.world0
    = (Raise (KeyError "irc"), mkWorld [(DEBUG, default_line)] [])
  ∧ send_to_all "irc" "me" [] "Hi {}" () demo.table demo_builder demo.world0
    = (Raise (KeyError "irc"), mkWorld [(DEBUG, default_line)] []).
Proof.
  assert (∀ r, r ∈ demo.table → "irc" ∉ PyDict.keys r) as Hp.
  { apply Forall_forall.
    repeat constructor; apply (bool_decide_unpack _); by vm_compute. }
  split; [done|].
  exact (proj2 (build_resources_unknown_platform "irc" "me" "Hi {}" ()
                  demo.table demo_builder demo.world0 Hp)).
Defined.

(** * Further properties of the identity table *)

Section table_more.
Implicit Types (user r : User) (pm : platform_map) (m : id_map).
Implicit Types (data : list User) (t : UserTable).
Implicit Types (p q x : string) (ids seen xs : list string).

Lemma add_new_app seen xs1 xs2 :
  add_new seen (xs1 ++ xs2) = add_new (add_new seen xs1) xs2.
Proof. apply foldl_app. Qed.

Lemma elem_of_add_new seen xs x :
  x ∈ add_new seen xs ↔ x ∈ seen ∨ x ∈ xs.
Proof.
  unfold add_new. revert seen.
  induction xs as [|y xs IH]; intros seen; simpl.
  - rewrite elem_of_nil. tauto.
  - rewrite IH, elem_of_cons. case_decide as Hy.
    + split; [tauto|]. intros [?|[->|?]]; tauto.
    + rewrite elem_of_app, list_elem_of_singleton. tauto.
Qed.

Lemma NoDup_add_new seen xs : NoDup seen → NoDup (add_new seen xs).
Proof.
  unfold add_new. revert seen.
  induction xs as [|y xs IH]; intros seen Hseen; simpl; [done|].
  apply IH. case_decide as Hy; [done|].
  apply NoDup_app. split_and!; [done| |apply NoDup_singleton].
  by intros z Hz ->%list_elem_of_singleton.
Qed.

Lemma add_new_absorb seen xs :
  (∀ x, x ∈ xs → x ∈ seen) → add_new seen xs = seen.
Proof.
  unfold add_new. revert seen.
  induction xs as [|y xs IH]; intros seen Hxs; simpl; [done|].
  rewrite decide_True by (apply Hxs; by left).
  apply IH. intros x Hx. apply Hxs. by right.
Qed.

Lemma add_new_twice seen xs : add_new (add_new seen xs) xs = add_new seen xs.
Proof.
  apply add_new_absorb. intros x Hx. apply elem_of_add_new. by right.
Qed.

Lemma keys_index_ids user ids m :
  PyDict.keys (index_ids user ids m) = add_new (PyDict.keys m) ids.
Proof.
  unfold index_ids, add_new. revert m.
  induction ids as [|i ids IH]; intros m; simpl; [done|].
  rewrite IH, keys_setitem. f_equal.
  destruct (PyDict.contains i m) eqn:Hi.
  - apply contains_keys in Hi. by rewrite decide_True.
  - rewrite decide_False; [done|]. intros Hin%contains_keys. congruence.
Qed.

Lemma keys_at_setitem pm p q m :
  keys_at (PyDict.setitem p m pm) q
  = if decide (p = q) then PyDict.keys m else keys_at pm q.
Proof. unfold keys_at. rewrite get_setitem. by case_decide. Qed.

Lemma index_platforms_keys user ps pm pm' :
  (∀ p, p ∈ ps → is_Some (PyDict.get user p)) →
  for_each (index_platform user) pm ps = Ok pm' →
  ∀ q, keys_at pm' q
       = if decide (q ∈ ps)
         then add_new (keys_at pm q) (default [] (PyDict.get user q))
         else keys_at pm q.
Proof.
  revert pm. induction ps as [|p ps IH]; intros pm Hps Hrun q.
  - injection Hrun as <-. by rewrite decide_False by apply not_elem_of_nil.
  - destruct (Hps p) as [ids Hids]; [by left|].
    simpl in Hrun. rewrite (index_platform_Ok _ _ _ ids) in Hrun by done.
    simpl in Hrun.
    rewrite (IH _ (fun p' Hp' => Hps p' (list_elem_of_further _ _ _ Hp'))
               Hrun).
    rewrite keys_at_setitem, keys_index_ids.
    destruct (decide (p = q)) as [<-|Hpq].
    + rewrite Hids. simpl. fold (keys_at pm p).
      rewrite (decide_True (P := p ∈ p :: ps)) by (by left).
      case_decide; [apply add_new_twice|done].
    + apply decide_ext. rewrite elem_of_cons. intuition congruence.
Qed.

Lemma index_user_keys pm user pm' :
  index_user pm user = Ok pm' →
  ∀ q, keys_at pm' q
       = add_new (keys_at pm q) (default [] (PyDict.get user q)).
Proof.
  intros Hrun q.
  rewrite (index_platforms_keys user (PyDict.keys user) pm pm');
    [|intros p; by rewrite elem_of_keys|done].
  case_decide as Hq; [done|].
  rewrite elem_of_keys, <-eq_None_not_Some in Hq. by rewrite Hq.
Qed.

Lemma build_mappings_keys pm data pm' :
  for_each index_user pm data = Ok pm' →
  ∀ q, keys_at pm' q = add_new (keys_at pm q) (ids_for data q).
Proof.
  revert pm. induction data as [|r data IH]; intros pm Hrun q.
  - by injection Hrun as <-.
  - simpl in Hrun.
    destruct (index_user pm r) as [pm1|e] eqn:Hr; [|done]. simpl in Hrun.
    rewrite (IH _ Hrun), (index_user_keys _ _ _ Hr).
    unfold ids_for. by rewrite bind_cons, add_new_app.
Qed.

End table_more.

Section table_extras.
Implicit Types (user r R : User) (pm : platform_map) (m : id_map).
Implicit Types (data : list User) (t : UserTable).
Implicit Types (p q x : string) (ids seen xs : list string).

Lemma UserTable_init_mappings data t :
  UserTable_init data = Ok t → for_each index_user [] data = Ok (mappings t).
Proof.
  unfold UserTable_init, _build_mappings.
  destruct (for_each index_user [] data) as [pm|e]; simpl; [|done].
  by intros [= <-].
Qed.

Lemma owner_None data p x :
  (∀ r, r ∈ data → ¬ lists r p x) → owner data p x = None.
Proof.
  intros Hno. unfold owner. apply last_None.
  induction data as [|r data IH]; [done|].
  rewrite filter_cons, decide_False by (apply Hno; by left).
  apply IH. intros r' Hr'. apply Hno. by right.
Qed.

Lemma prefix_add_new seen xs : seen `prefix_of` add_new seen xs.
Proof.
  unfold add_new. revert seen.
  induction xs as [|y xs IH]; intros seen; simpl; [done|].
  case_decide; [apply IH|].
  etrans; [|apply IH]. by apply prefix_app_r.
Qed.

Lemma get_user_unlisted data t p x :
  UserTable_init data = Ok t →
  (∀ r, r ∈ data → ¬ lists r p x) →
  get_user t p x
  = Raise (KeyError (if PyDict.contains p (mappings t) then x else p)).
Proof.
  intros Ht Hno.
  destruct (UserTable_init_spec data) as (t' & Ht' & _ & Hentry & _).
  rewrite Ht in Ht'. injection Ht' as <-.
  by rewrite get_user_entry, Hentry, (owner_None _ _ _ Hno).
Qed.

(** [get_user] raises exactly for the pairs that no record lists: when no
    record of the input lists [x] for [p], the lookup raises [KeyError],
    with the identifier as its key when some record has the platform and
    with the platform as its key when none has. *)
Theorem get_user_unknown data p x :
  (∀ r, r ∈ data → ¬ lists r p x) →
  (t ← UserTable_init data; get_user t p x)
  = Raise (KeyError
             (if bool_decide (Exists (fun r => p ∈ PyDict.keys r) data)
              then x else p)).
Proof.
  intros Hno.
  destruct (UserTable_init_spec data) as (t & Ht & _ & _ & Hdom & _).
  rewrite Ht. simpl. rewrite (get_user_unlisted data t p x Ht Hno).
  do 2 f_equal. specialize (Hdom p). rewrite <-Exists_exists in Hdom.
  destruct (PyDict.contains p (mappings t)) eqn:Hc.
  - rewrite bool_decide_true; [done|].
    apply Hdom, elem_of_keys. by apply contains_keys.
  - rewrite bool_decide_false; [done|].
    intros Hp%Hdom%elem_of_keys%contains_keys. congruence.
Qed.

Lemma get_user_unknown_witness :
  (∀ r, r ∈ demo.table → ¬ lists r "slack" "carol")
  ∧ (t ← UserTable_init demo.table; get_user t "slack" "carol")
    = Raise (KeyError "carol").
Proof.
  assert (∀ r, r ∈ demo.table → ¬ lists r "slack" "carol") as Hno.
  { apply Forall_forall.
    repeat constructor; apply (bool_decide_unpack _); by vm_compute. }
  split; [done|].
  exact (get_user_unknown demo.table "slack" "carol" Hno).
Defined.

(** The index holds nothing but what the input says: a record that
    [get_user p x] returns is a record of the input that lists [x] for [p],
    and no record after it in the input lists [x] for [p]. *)
Theorem get_user_sound data p x R :
  (t ← UserTable_init data; get_user t p x) = Ok R →
  ∃ data1 data2,
    data = data1 ++ R :: data2
    ∧ lists R p x
    ∧ Forall (fun r => ¬ lists r p x) data2.
Proof.
  destruct (UserTable_init_spec data) as (t & -> & _ & Hentry & _).
  simpl. rewrite get_user_Ok, Hentry. intros Howner.
  destruct (owner_elem_of _ _ _ _ Howner) as [_ Hl].
  apply last_filter_Some in Howner as (data1 & data2 & -> & Hlater).
  by exists data1, data2.
Qed.

Lemma get_user_sound_witness :
  (t ← UserTable_init shared_id_table; get_user t "slack" "x")
  = Ok [("slack", ["x"])]
  ∧ ∃ data1 data2,
      shared_id_table = data1 ++ [("slack", ["x"])] :: data2
      ∧ lists [("slack", ["x"])] "slack" "x"
      ∧ Forall (fun r => ¬ lists r "slack" "x") data2.
Proof.
  split; [reflexivity|].
  apply (get_user_sound shared_id_table "slack" "x"). reflexivity.
Defined.

(** On a table in which a pair has a single owner (no other record lists
    [x] for [p]), looking the pair up gives back that owner: what a record
    puts into the index under its identifiers is the record itself. *)
Theorem get_user_unique_owner data r p x :
  r ∈ data → lists r p x →
  (∀ r', r' ∈ data → lists r' p x → r' = r) →
  (t ← UserTable_init data; get_user t p x) = Ok r.
Proof.
  intros Hr Hl Huniq.
  destruct (UserTable_init_spec data) as (t & -> & _ & Hentry & _).
  simpl. rewrite get_user_Ok, Hentry.
  destruct (owner_is_Some data p x r Hr Hl) as [R HR].
  destruct (owner_elem_of _ _ _ _ HR) as [HRin HRl].
  by rewrite <-(Huniq R HRin HRl).
Qed.

Lemma get_user_unique_owner_witness :
  [("slack", ["bob"]); ("email", ["bob@x.com"])] ∈ demo.table
  ∧ lists [("slack", ["bob"]); ("email", ["bob@x.com"])] "email" "bob@x.com"
  ∧ (∀ r', r' ∈ demo.table → lists r' "email" "bob@x.com" →
           r' = [("slack", ["bob"]); ("email", ["bob@x.com"])])
  ∧ (t ← UserTable_init demo.table; get_user t "email" "bob@x.com")
    = Ok [("slack", ["bob"]); ("email", ["bob@x.com"])].
Proof.
  assert ([("slack", ["bob"]); ("email", ["bob@x.com"])] ∈ demo.table)
    as Hr by (right; by left).
  assert (lists [("slack", ["bob"]); ("email", ["bob@x.com"])]
            "email" "bob@x.com") as Hl by (by left).
  assert (∀ r', r' ∈ demo.table → lists r' "email" "bob@x.com" →
                r' = [("slack", ["bob"]); ("email", ["bob@x.com"])]) as Hu.
  { intros r' Hr'. unfold demo.table in Hr'.
    rewrite !elem_of_cons, elem_of_nil in Hr'.
    by destruct Hr' as [->|[->|[]]]. }
  split_and!; [done|done|done|].
  exact (get_user_unique_owner demo.table _ "email" "bob@x.com" Hr Hl Hu).
Defined.

(** [get_users] succeeds exactly for the platforms that occur as a key of
    some record, whether or not the record lists an identifier under it. *)
Theorem get_users_known_iff data p :
  (∃ m, (t ← UserTable_init data; get_users t p) = Ok m)
  ↔ ∃ r, r ∈ data ∧ p ∈ PyDict.keys r.
Proof.
  destruct (UserTable_init_spec data) as (t & Ht & _ & _ & Hdom & _).
  rewrite Ht. simpl. rewrite <-Hdom. unfold get_users. split.
  - intros [m Hm%getitem_Ok]. by exists m.
  - intros [m Hm]. exists m. by apply getitem_Ok.
Qed.

Lemma keys_order_of_table data t p :
  UserTable_init data = Ok t →
  (∃ r, r ∈ data ∧ p ∈ PyDict.keys r) →
  ∃ m, get_users t p = Ok m ∧ PyDict.keys m = first_seen (ids_for data p).
Proof.
  intros Ht Hp.
  destruct (UserTable_init_spec data) as (t' & Ht' & _ & _ & Hdom & _).
  rewrite Ht in Ht'. injection Ht' as <-.
  pose proof (build_mappings_keys [] data (mappings t)
                (UserTable_init_mappings data t Ht) p) as Hkeys.
  destruct (proj2 (Hdom p) Hp) as [m Hm]. exists m.
  split; [by apply getitem_Ok|].
  unfold keys_at in Hkeys. rewrite Hm in Hkeys. exact Hkeys.
Qed.

(** The keys of the mapping that [get_users p] returns, which are the
    default recipients of a run, are the identifiers that the records list
    for [p], each once, in the order in which the input first mentions
    them. *)
Theorem get_users_keys_order data p :
  (∃ r, r ∈ data ∧ p ∈ PyDict.keys r) →
  ∃ m,
    (t ← UserTable_init data; get_users t p) = Ok m
    ∧ PyDict.keys m = first_seen (ids_for data p).
Proof.
  intros Hp.
  destruct (UserTable_init_spec data) as (t & Ht & _ & _ & Hdom & _).
  pose proof (build_mappings_keys [] data (mappings t)
                (UserTable_init_mappings data t Ht) p) as Hkeys.
  destruct (proj2 (Hdom p) Hp) as [m Hm]. exists m. rewrite Ht. simpl.
  split; [by apply getitem_Ok|].
  unfold keys_at in Hkeys. rewrite Hm in Hkeys. exact Hkeys.
Qed.

Lemma get_users_keys_order_witness :
  (∃ r, r ∈ shared_id_table ∧ "slack" ∈ PyDict.keys r)
  ∧ ∃ m,
      (t ← UserTable_init shared_id_table; get_users t "slack") = Ok m
      ∧ PyDict.keys m = ["x"].
Proof.
  assert (∃ r, r ∈ shared_id_table ∧ "slack" ∈ PyDict.keys r) as Hp.
  { exists [("slack", ["x"])]. split; [right; by left|by left]. }
  split; [done|]. exact (get_users_keys_order shared_id_table "slack" Hp).
Defined.

(** Adding a record at the end of the input: the pairs it lists now
    resolve to it, every other pair that resolved keeps its record, and the
    identifiers that [get_users] knows for a platform keep their places,
    new ones coming after them. *)
Theorem UserTable_init_append data r p x :
  (lists r p x →
   (t ← UserTable_init (data ++ [r]); get_user t p x) = Ok r)
  ∧ (∀ R, ¬ lists r p x →
          (t ← UserTable_init data; get_user t p x) = Ok R →
          (t ← UserTable_init (data ++ [r]); get_user t p x) = Ok R)
  ∧ (∀ m m',
       (t ← UserTable_init data; get_users t p) = Ok m →
       (t ← UserTable_init (data ++ [r]); get_users t p) = Ok m' →
       PyDict.keys m `prefix_of` PyDict.keys m').
Proof.
  destruct (UserTable_init_spec data) as (t & Ht & _ & Hentry & Hdom & _).
  destruct (UserTable_init_spec (data ++ [r]))
    as (t' & Ht' & _ & Hentry' & Hdom' & _).
  rewrite Ht, Ht'. simpl. split_and!.
  - intros Hl. rewrite get_user_Ok, Hentry'.
    by apply owner_last.
  - intros R Hl. rewrite !get_user_Ok, Hentry, Hentry'. unfold owner.
    by rewrite filter_app, filter_cons, decide_False, filter_nil, app_nil_r.
  - intros m m' Hm Hm'.
    destruct (keys_order_of_table data t p Ht) as (m0 & Hm0 & Hk0).
    { apply Hdom. apply getitem_Ok in Hm. by eexists. }
    destruct (keys_order_of_table (data ++ [r]) t' p Ht')
      as (m1 & Hm1 & Hk1).
    { apply Hdom'. apply getitem_Ok in Hm'. by eexists. }
    rewrite Hm in Hm0. injection Hm0 as <-.
    rewrite Hm' in Hm1. injection Hm1 as <-.
    rewrite Hk0, Hk1.
    unfold first_seen, ids_for. rewrite bind_app, add_new_app.
    apply prefix_add_new.
Qed.

Lemma get_unrecognized_Raise t p x ids e :
  get_users t p = Raise e → get_unrecognized t p (x :: ids) = Raise e.
Proof. intros Hu. simpl. by rewrite Hu. Qed.

(** [get_unrecognized] treats a list piece by piece and has nothing left to
    remove from its own result: the call on [ids1 ++ ids2] is the call on
    [ids1] followed by the call on [ids2], results appended and the first
    exception raised, and calling it again on its result returns the
    result. This holds whether or not the table has the platform. *)
Theorem get_unrecognized_app_idem t p ids1 ids2 :
  get_unrecognized t p (ids1 ++ ids2)
  = (out1 ← get_unrecognized t p ids1;
     out2 ← get_unrecognized t p ids2;
     Ok (out1 ++ out2))
  ∧ (out ← get_unrecognized t p ids1; get_unrecognized t p out)
    = get_unrecognized t p ids1.
Proof.
  destruct (get_users t p) as [m|e] eqn:Hm.
  - rewrite !(get_unrecognized_Ok t p m) by done. simpl.
    rewrite !(get_unrecognized_Ok t p m) by done.
    split; [by rewrite filter_app|].
    f_equal. apply list_filter_filter_l. tauto.
  - destruct ids1 as [|x ids1]; simpl.
    + split; [|done]. by destruct (get_unrecognized t p ids2).
    + by rewrite Hm.
Qed.

(** On a table that has the platform, the identifiers that
    [get_unrecognized] returns are those of the given list that no record
    of the input lists for the platform, that is those for which [get_user]
    raises [KeyError] with the identifier as key. *)
Theorem get_unrecognized_unlisted data p ids :
  (∃ r, r ∈ data ∧ p ∈ PyDict.keys r) →
  ∃ out,
    (t ← UserTable_init data; get_unrecognized t p ids) = Ok out
    ∧ (∀ x, x ∈ out ↔ x ∈ ids ∧ ∀ r, r ∈ data → ¬ lists r p x)
    ∧ (∀ x, x ∈ out →
            (t ← UserTable_init data; get_user t p x) = Raise (KeyError x)).
Proof.
  intros Hp.
  destruct (UserTable_init_spec data) as (t & Ht & _ & _ & _).
  destruct (get_users_known data t p Ht Hp) as (m & Hm & _ & Hkeys).
  assert (∀ x, x ∉ PyDict.keys m ↔ ∀ r, r ∈ data → ¬ lists r p x)
    as Hno.
  { intros x. rewrite Hkeys. split.
    - intros Hx r Hr Hl. apply Hx. by exists r.
    - intros Hx (r & Hr & Hl). by apply (Hx r). }
  exists (filter (fun x => x ∉ PyDict.keys m) ids).
  rewrite Ht. simpl. split_and!.
  - by apply get_unrecognized_Ok.
  - intros x. rewrite list_elem_of_filter, Hno. tauto.
  - intros x [Hx _]%list_elem_of_filter.
    rewrite (get_user_unlisted data t p x Ht (proj1 (Hno x) Hx)).
    assert (PyDict.contains p (mappings t) = true) as ->; [|done].
    apply contains_keys, elem_of_keys. apply getitem_Ok in Hm. by eexists.
Qed.

Lemma get_unrecognized_unlisted_witness :
  (∃ r, r ∈ demo.table ∧ "slack" ∈ PyDict.keys r)
  ∧ ∃ out,
      (t ← UserTable_init demo.table;
       get_unrecognized t "slack" ["carol"; "bob"]) = Ok out
      ∧ (∀ x, x ∈ out
              ↔ x ∈ ["carol"; "bob"]
                ∧ ∀ r, r ∈ demo.table → ¬ lists r "slack" x)
      ∧ (∀ x, x ∈ out →
              (t ← UserTable_init demo.table; get_user t "slack" x)
              = Raise (KeyError x)).
Proof.
  assert (∃ r, r ∈ demo.table ∧ "slack" ∈ PyDict.keys r) as Hp.
  { exists [("slack", ["alice"])]. split; by left. }
  split; [done|].
  exact (get_unrecognized_unlisted demo.table "slack" ["carol"; "bob"] Hp).
Defined.

End table_extras.

Lemma UserTable_init_append_witness :
  lists [("slack", ["x"])] "slack" "x"
  ∧ (t ← UserTable_init ([[("slack", ["x"]); ("email", ["a@x.com"])]]
                          ++ [[("slack", ["x"])]]);
     get_user t "slack" "x") = Ok [("slack", ["x"])]
  ∧ (¬ lists [("slack", ["x"])] "email" "a@x.com" →
     (t ← UserTable_init ([[("slack", ["x"]); ("email", ["a@x.com"])]]
                            ++ [[("slack", ["x"])]]);
      get_user t "email" "a@x.com")
     = Ok [("slack", ["x"]); ("email", ["a@x.com"])]).
Proof.
  assert (lists [("slack", ["x"])] "slack" "x") as Hl by (by left).
  destruct (UserTable_init_append
              [[("slack", ["x"]); ("email", ["a@x.com"])]]
              [("slack", ["x"])] "slack" "x") as (Hnew & _ & _).
  destruct (UserTable_init_append
              [[("slack", ["x"]); ("email", ["a@x.com"])]]
              [("slack", ["x"])] "email" "a@x.com") as (_ & Hold & _).
  split; [done|]. split; [exact (Hnew Hl)|].
  intros Hno. by apply Hold.
Defined.

(** * Further properties of the registry *)

(** The two registries of [platforms.py] are inverse to each other: a name
    leads to a class in [platform_class] exactly when the class leads back
    to the name in [platform_name]; in particular the name that
    [build_messages] finds for the class of its platform is one under which
    [platform_class] has that class. *)
Theorem platform_registries_inverse (n : string) (c : PlatformClass) :
  PyDict.getitem platform_class n = Ok c
  ↔ PyDict.getitem platform_name c = Ok n.
Proof.
  rewrite !getitem_Ok. unfold platform_class, platform_name. simpl.
  destruct c; repeat case_decide; split; intros Heq;
    simplify_eq; try done.
Qed.

(** * Further properties of the assembler *)

Section assembler_more.
Context {SenderData ClientUser PlatformUser TemplatingData : Type}.
Context `{Adapters SenderData ClientUser PlatformUser} `{StrFormat}.
Context (t : UserTable) (pname : string).
Context (builder : User -> TemplatingData -> template_input).
Context (td : TemplatingData).
Implicit Types (sender : ClientUser) (content : string).
Implicit Types (rs : list PlatformUser) (r : PlatformUser).
Implicit Types (acc msgs : list (Message ClientUser PlatformUser)).
Implicit Types (w : World (Message ClientUser PlatformUser)).

(** The messages collected before a loop starts come out in front of the
    messages that the loop adds. *)
Lemma fill_loop_acc sender content rs acc w :
  for_each (fill_message pname td t builder) acc
    (basic_build_messages sender rs content) w
  = match for_each (fill_message pname td t builder) []
            (basic_build_messages sender rs content) w with
    | (Ok new, w') => (Ok (acc ++ new), w')
    | (Raise e, w') => (Raise e, w')
    end.
Proof.
  revert acc w. induction rs as [|r rs IH]; intros acc w.
  - simpl. by rewrite app_nil_r.
  - simpl. unfold mbind, M_bind. rewrite !fill_message_step.
    destruct (get_user t pname (get_id r)) as [user|e]; [|apply IH].
    destruct (is_None (builder user td)); [apply IH|].
    destruct (_ ≫= _) as [s|e]; [|by destruct e].
    rewrite (IH (acc ++ _)), (IH ([] ++ _)).
    destruct (for_each (fill_message pname td t builder) []
                (basic_build_messages sender rs content) w)
      as [[new|e] w']; [|done].
    by rewrite <-app_assoc.
Qed.

Lemma skip_lines_cons r rs :
  skip_lines t pname (r :: rs)
  = (if unresolvable t pname r then [(ERROR, skip_line (get_id r))] else [])
    ++ skip_lines t pname rs.
Proof.
  unfold skip_lines. rewrite filter_cons.
  by destruct (unresolvable t pname r).
Qed.

(** Whatever the outcome, the loop leaves the outbox alone and adds to the
    log the skip lines of the recipients it went through; it went through
    all of them when it returned. *)
Lemma fill_loop_world sender content rs acc w :
  ∃ visited rest,
    rs = visited ++ rest
    ∧ (for_each (fill_message pname td t builder) acc
         (basic_build_messages sender rs content) w).2
      = mkWorld (log w ++ skip_lines t pname visited) (outbox w)
    ∧ (∀ msgs,
         (for_each (fill_message pname td t builder) acc
            (basic_build_messages sender rs content) w).1 = Ok msgs →
         rest = []).
Proof.
  revert acc w. induction rs as [|r rs IH]; intros acc w.
  - exists [], []. unfold skip_lines. simpl. rewrite app_nil_r.
    by destruct w.
  - simpl. unfold mbind, M_bind. rewrite fill_message_step.
    pose proof (skip_lines_cons r) as Hcons. unfold unresolvable in Hcons.
    destruct (get_user t pname (get_id r)) as [user|e] eqn:Hu.
    + assert (∀ acc',
                ∃ visited rest,
                  r :: rs = visited ++ rest
                  ∧ (for_each (fill_message pname td t builder) acc'
                       (basic_build_messages sender rs content) w).2
                    = mkWorld (log w ++ skip_lines t pname visited) (outbox w)
                  ∧ (∀ msgs,
                       (for_each (fill_message pname td t builder) acc'
                          (basic_build_messages sender rs content) w).1
                       = Ok msgs → rest = [])) as Hnext.
      { intros acc'. destruct (IH acc' w) as (visited & rest & -> & Hw & Hr).
        exists (r :: visited), rest. split; [done|]. split; [|done].
        by rewrite Hcons. }
      destruct (is_None (builder user td)); [apply Hnext|].
      destruct (_ ≫= _) as [s|e]; [apply Hnext|].
      exists [], (r :: rs). unfold skip_lines. simpl. rewrite app_nil_r.
      split; [done|]. by destruct e, w.
    + destruct (IH acc (mkWorld (log w ++ [(ERROR, skip_line (get_id r))])
                          (outbox w)))
        as (visited & rest & Hrs & Hw & Hr).
      exists (r :: visited), rest. split; [by rewrite Hrs|].
      split; [|exact Hr].
      etrans; [exact Hw|]. rewrite Hcons. simpl. by rewrite <-app_assoc.
Qed.

Lemma unresolvable_keys (m : id_map) r :
  get_users t pname = Ok m →
  unresolvable t pname r = true ↔ get_id r ∉ PyDict.keys m.
Proof.
  intros Hm. unfold unresolvable, get_user. rewrite Hm. simpl.
  rewrite elem_of_keys. unfold PyDict.getitem.
  destruct (PyDict.get m (get_id r)) as [user|]; split.
  - done.
  - intros Hno. destruct Hno. by eexists.
  - by intros _ [? ?].
  - done.
Qed.

Lemma skip_lines_unrecognized (m : id_map) rs :
  get_users t pname = Ok m →
  skip_lines t pname rs
  = (fun x => (ERROR, skip_line x))
      <$> filter (fun x => x ∉ PyDict.keys m) (get_id <$> rs).
Proof.
  intros Hm. unfold skip_lines.
  induction rs as [|r rs IH]; [done|].
  rewrite fmap_cons, !filter_cons.
  pose proof (unresolvable_keys m r Hm) as Hr.
  destruct (unresolvable t pname r); simpl.
  - rewrite (decide_True (P := get_id r ∉ _)) by (by apply Hr).
    csimpl. by rewrite IH.
  - rewrite (decide_False (P := get_id r ∉ _)); [done|].
    intros Hno. apply Hr in Hno. done.
Qed.

Lemma unresolvable_all rs e :
  get_users t pname = Raise e →
  filter (unresolvable t pname) rs = rs
  ∧ filter (answered t pname builder td) rs = [].
Proof.
  intros Hu.
  assert (∀ r, unresolvable t pname r = true
               ∧ answered t pname builder td r = false) as Hall.
  { intros r. unfold unresolvable, answered, get_user. by rewrite Hu. }
  induction rs as [|r rs [IH1 IH2]]; [done|].
  rewrite !filter_cons. destruct (Hall r) as [-> ->]. simpl.
  by rewrite IH1, IH2.
Qed.

End assembler_more.

Section assembler_extras.
Context {SenderData ClientUser PlatformUser TemplatingData : Type}.
Context `{Adapters SenderData ClientUser PlatformUser} `{StrFormat}.
Implicit Types (platform : Platform) (sender : ClientUser).
Implicit Types (rs : list PlatformUser) (r : PlatformUser).
Implicit Types (content : string) (td : TemplatingData) (t : UserTable).
Implicit Types (builder : User -> TemplatingData -> template_input).
Implicit Types (msgs : list (Message ClientUser PlatformUser)).
Implicit Types (w : World (Message ClientUser PlatformUser)).

(** The recipients and senders of what a run returns. *)
Lemma run_recipients_senders
    platform sender rs content td t builder w msgs w' :
  build_messages platform sender rs content td t builder w = (Ok msgs, w') →
  recipient <$> msgs
  = filter (answered t (name_of (type platform)) builder td) rs
  ∧ Forall (fun m => templated.sender m = sender) msgs.
Proof.
  rewrite build_messages_loop.
  intros (new & -> & Hrec & Hall & _)%fill_loop_Ok. simpl.
  split; [done|]. eapply Forall_impl; [exact Hall|]. by intros m [? _].
Qed.

(** A run whose answered recipients all substitute returns, and the
    recipients of what it returns are the answered ones. *)
Lemma run_returns_answered
    platform sender rs content td t builder w :
  let pname := name_of (type platform) in
  (∀ r, r ∈ rs → answered t pname builder td r = true →
        ∃ s, substituted t pname builder td content r = Ok s) →
  ∃ msgs,
    build_messages platform sender rs content td t builder w
    = (Ok msgs, mkWorld (log w ++ skip_lines t pname rs) (outbox w))
    ∧ recipient <$> msgs = filter (answered t pname builder td) rs.
Proof.
  intros pname Hvalid. rewrite build_messages_loop. fold pname.
  destruct (fill_loop_total t pname builder td sender content rs [] w Hvalid)
    as (msgs & w' & Hrun).
  pose proof Hrun as (new & -> & Hrec & _ & ->)%fill_loop_Ok.
  by exists new.
Qed.

(** [build_messages] returns a list exactly when the substitution succeeds
    for every recipient that has an entry and a value from the builder;
    recipients without an entry or without a value never make it raise. *)
Theorem build_messages_returns_iff platform sender rs content td t builder w :
  let pname := name_of (type platform) in
  (∃ msgs w',
     build_messages platform sender rs content td t builder w = (Ok msgs, w'))
  ↔ ∀ r, r ∈ rs → answered t pname builder td r = true →
         ∃ s, substituted t pname builder td content r = Ok s.
Proof.
  intros pname. rewrite build_messages_loop. fold pname. split.
  - intros (msgs & w' & (new & _ & Hrec & Hall & _)%fill_loop_Ok) r Hr Ha.
    assert (r ∈ recipient <$> new) as (m & -> & Hm)%list_elem_of_fmap.
    { rewrite Hrec. apply list_elem_of_filter. by rewrite Ha. }
    rewrite Forall_forall in Hall. destruct (Hall m Hm) as [_ Hs]. eauto.
  - apply fill_loop_total.
Qed.

(** The first recipient whose substitution raises ends the run: the
    messages built before it are dropped with the list, the skip lines
    logged before it stay, no later recipient is looked at, and the
    exception is the one of the substitution, a [TypeError] being replaced
    by the [TypeError] of [build_messages]. *)
Theorem build_messages_first_failure
    platform sender rs1 r rs2 content td t builder w msgs1 w1 (e : exn) :
  let pname := name_of (type platform) in
  build_messages platform sender rs1 content td t builder w = (Ok msgs1, w1) →
  answered t pname builder td r = true →
  substituted t pname builder td content r = Raise e →
  build_messages platform sender (rs1 ++ r :: rs2) content td t builder w
  = (Raise (relabel e), w1)
  ∧ w1 = mkWorld (log w ++ skip_lines t pname rs1) (outbox w).
Proof.
  intros pname. rewrite !build_messages_loop. fold pname.
  intros Hrun Ha Hs. split.
  - unfold basic_build_messages in *.
    rewrite map_app, for_each_app, Hrun. simpl. unfold mbind, M_bind.
    change (mkMessage sender r content :: _)
      with (mkMessage sender r content
            :: basic_build_messages sender rs2 content).
    rewrite fill_message_step. unfold answered, substituted in *.
    destruct (get_user t pname (get_id r)) as [user|]; [|done].
    destruct (is_None (builder user td)); [done|].
    simpl in Hs. rewrite Hs. by destruct e.
  - by apply fill_loop_Ok in Hrun as (new & _ & _ & _ & ->).
Qed.

(** A run over [rs1 ++ rs2] is the run over [rs1] followed by the run over
    [rs2]: when the first returns, the whole run returns the messages of
    both, in that order, or raises what the second raises. *)
Theorem build_messages_app
    platform sender rs1 rs2 content td t builder w msgs1 w1 :
  build_messages platform sender rs1 content td t builder w = (Ok msgs1, w1) →
  build_messages platform sender (rs1 ++ rs2) content td t builder w
  = match build_messages platform sender rs2 content td t builder w1 with
    | (Ok msgs2, w2) => (Ok (msgs1 ++ msgs2), w2)
    | (Raise e, w2) => (Raise e, w2)
    end.
Proof.
  rewrite !build_messages_loop. intros Hrun.
  unfold basic_build_messages in *. rewrite map_app, for_each_app, Hrun.
  apply fill_loop_acc.
Qed.

Lemma build_messages_outbox platform sender rs content td t builder w res w' :
  build_messages platform sender rs content td t builder w = (res, w') →
  outbox w' = outbox w.
Proof.
  rewrite build_messages_loop. intros Hrun.
  destruct (fill_loop_world t (name_of (type platform)) builder td sender
              content rs [] w) as (visited & rest & _ & Hw & _).
  rewrite Hrun in Hw. simpl in Hw. by subst w'.
Qed.

(** Whether it returns or raises, [build_messages] sends nothing, and what
    it logs is the skip lines of the recipients without an entry among
    those it went through, which are all the recipients when it returns. *)
Theorem build_messages_effects
    platform sender rs content td t builder w res w' :
  let pname := name_of (type platform) in
  build_messages platform sender rs content td t builder w = (res, w') →
  outbox w' = outbox w
  ∧ ∃ visited,
      visited `prefix_of` rs
      ∧ log w' = log w ++ skip_lines t pname visited
      ∧ (∀ msgs, res = Ok msgs → visited = rs).
Proof.
  intros pname. rewrite build_messages_loop. fold pname. intros Hrun.
  destruct (fill_loop_world t pname builder td sender content rs [] w)
    as (visited & rest & -> & Hw & Hrest).
  rewrite Hrun in Hw, Hrest. simpl in Hw, Hrest. subst w'. simpl.
  split; [done|]. exists visited. split_and!; [by eexists|done|].
  intros msgs Hres. rewrite (Hrest msgs Hres). by rewrite app_nil_r.
Qed.

(** When the table does not have the platform of the run, every recipient
    is skipped: the run returns no message and logs one skip line for each
    recipient, in order. *)
Theorem build_messages_unknown_platform
    platform sender rs content td t builder w (e : exn) :
  get_users t (name_of (type platform)) = Raise e →
  build_messages platform sender rs content td t builder w
  = (Ok [],
     mkWorld (log w ++ ((fun r => (ERROR, skip_line (get_id r))) <$> rs))
       (outbox w)).
Proof.
  intros Hu. set (pname := name_of (type platform)) in *.
  destruct (unresolvable_all t pname builder td rs e Hu) as [Hall Hnone].
  destruct (run_returns_answered platform sender rs content
              td t builder w) as (msgs & Hrun & Hrec).
  { intros r _ Ha. fold pname in Ha.
    assert (r ∈ filter (answered t pname builder td) [r]) as Hr.
    { rewrite filter_cons, Ha. by left. }
    destruct (unresolvable_all t pname builder td [r] e Hu) as [_ Hno].
    rewrite Hno in Hr. by apply elem_of_nil in Hr. }
  fold pname in Hrun, Hrec. rewrite Hrun. unfold skip_lines.
  rewrite Hall. rewrite Hnone in Hrec. by destruct msgs.
Qed.

End assembler_extras.

(** * Further properties of sending *)

Section sending.
Context {SenderData ClientUser PlatformUser TemplatingData : Type}.
Context `{Adapters SenderData ClientUser PlatformUser} `{StrFormat}.
Implicit Types (platform : Platform) (sender : ClientUser).
Implicit Types (rs : list PlatformUser) (r : PlatformUser).
Implicit Types (content : string) (td : TemplatingData) (t : UserTable).
Implicit Types (builder : User -> TemplatingData -> template_input).
Implicit Types (msgs pre post : list (Message ClientUser PlatformUser)).
Implicit Types (w : World (Message ClientUser PlatformUser)).

(** The lines that a returning run logs name the identifiers that
    [get_unrecognized] reports for the identifiers of the recipients, in the
    same order: the check before a run foretells the skips of the run. *)
Theorem build_messages_log_unrecognized
    platform sender rs content td t builder w msgs w' (m : id_map) :
  get_users t (name_of (type platform)) = Ok m →
  build_messages platform sender rs content td t builder w = (Ok msgs, w') →
  ∃ out,
    get_unrecognized t (name_of (type platform)) (get_id <$> rs) = Ok out
    ∧ log w' = log w ++ ((fun x => (ERROR, skip_line x)) <$> out).
Proof.
  intros Hm Hrun. eexists. split; [by apply get_unrecognized_Ok|].
  rewrite build_messages_loop in Hrun.
  apply fill_loop_Ok in Hrun as (new & _ & _ & _ & ->). simpl.
  by rewrite (skip_lines_unrecognized t _ m).
Qed.

Lemma send_to_all_unfold platform sender rs content td t builder w :
  _send_to_all platform sender rs content td t builder w
  = match build_messages platform sender rs content td t builder w with
    | (Ok msgs, w1) =>
        for_each (fun _ message => basic_send_message message) () msgs w1
    | (Raise e, w1) => (Raise e, w1)
    end.
Proof. reflexivity. Qed.

Lemma send_loop_Ok msgs w :
  (∀ m, m ∈ msgs → transport m = Ok ()) →
  for_each (fun _ message => basic_send_message message) () msgs w
  = (Ok (), mkWorld (log w) (outbox w ++ msgs)).
Proof.
  revert w. induction msgs as [|m msgs IH]; intros w Hok.
  - simpl. rewrite app_nil_r. by destruct w.
  - simpl. unfold mbind, M_bind, basic_send_message.
    rewrite (Hok m) by (by left).
    rewrite IH by (intros m' Hm'; apply Hok; by right).
    simpl. by rewrite <-app_assoc.
Qed.

Lemma send_loop_Raise pre (m : Message ClientUser PlatformUser) post w e :
  (∀ m', m' ∈ pre → transport m' = Ok ()) →
  transport m = Raise e →
  for_each (fun _ message => basic_send_message message) ()
    (pre ++ m :: post) w
  = (Raise e, mkWorld (log w) (outbox w ++ pre)).
Proof.
  intros Hpre Hm. rewrite for_each_app, (send_loop_Ok pre w Hpre).
  simpl. unfold mbind, M_bind, basic_send_message. by rewrite Hm.
Qed.

Lemma send_loop_prefix msgs w :
  ∃ sent,
    sent `prefix_of` msgs
    ∧ (for_each (fun _ message => basic_send_message message) () msgs w).2
      = mkWorld (log w) (outbox w ++ sent).
Proof.
  revert w. induction msgs as [|m msgs IH]; intros w.
  - exists []. simpl. rewrite app_nil_r. by destruct w.
  - simpl. unfold mbind, M_bind, basic_send_message.
    destruct (transport m) as [[]|e].
    + destruct (IH (mkWorld (log w) (outbox w ++ [m]))) as (sent & Hp & Hw).
      exists (m :: sent). split; [by apply prefix_cons|].
      etrans; [exact Hw|]. simpl. by rewrite <-app_assoc.
    + exists []. simpl. rewrite app_nil_r. split; [apply prefix_nil|].
      by destruct w.
Qed.

(** When the transport takes every message, [_send_to_all] sends the
    messages that [build_messages] returns, all of them and in their order,
    and logs nothing beyond what [build_messages] logged. *)
Theorem send_to_all_delivers
    platform sender rs content td t builder w msgs w1 :
  build_messages platform sender rs content td t builder w = (Ok msgs, w1) →
  (∀ m, m ∈ msgs → transport m = Ok ()) →
  _send_to_all platform sender rs content td t builder w
  = (Ok (), mkWorld (log w1) (outbox w ++ msgs)).
Proof.
  intros Hrun Hok. rewrite send_to_all_unfold, Hrun, send_loop_Ok by done.
  by rewrite (build_messages_outbox _ _ _ _ _ _ _ _ _ _ Hrun).
Qed.

(** A transport failure ends the sending where it occurs: the messages
    before the failing one have been sent, the failing one and those after
    it have not, and the exception of the transport reaches the caller. *)
Theorem send_to_all_transport_failure
    platform sender rs content td t builder w pre
    (m : Message ClientUser PlatformUser) post w1 (e : exn) :
  build_messages platform sender rs content td t builder w
  = (Ok (pre ++ m :: post), w1) →
  (∀ m', m' ∈ pre → transport m' = Ok ()) →
  transport m = Raise e →
  _send_to_all platform sender rs content td t builder w
  = (Raise e, mkWorld (log w1) (outbox w ++ pre)).
Proof.
  intros Hrun Hpre Hm.
  rewrite send_to_all_unfold, Hrun, (send_loop_Raise _ _ _ _ e) by done.
  by rewrite (build_messages_outbox _ _ _ _ _ _ _ _ _ _ Hrun).
Qed.

(** All messages are built before the first is sent: when [build_messages]
    raises, [_send_to_all] raises the same exception and has sent nothing,
    not even to the recipients that came before the failing one. *)
Theorem send_to_all_build_failure
    platform sender rs content td t builder w w1 (e : exn) :
  build_messages platform sender rs content td t builder w = (Raise e, w1) →
  _send_to_all platform sender rs content td t builder w = (Raise e, w1)
  ∧ outbox w1 = outbox w.
Proof.
  intros Hrun. rewrite send_to_all_unfold, Hrun. split; [done|].
  by rewrite (build_messages_outbox _ _ _ _ _ _ _ _ _ _ Hrun).
Qed.

(** Whatever happens, [_send_to_all] only adds to the outbox, and what it
    adds goes to answered recipients from the given sender: the recipients
    of the messages sent form a subsequence of the recipient list, and none
    of them lacks an entry in the table or a value from the builder. *)
Theorem send_to_all_sends_answered
    platform sender rs content td t builder w res w' :
  let pname := name_of (type platform) in
  _send_to_all platform sender rs content td t builder w = (res, w') →
  ∃ sent,
    outbox w' = outbox w ++ sent
    ∧ (recipient <$> sent) `sublist_of` rs
    ∧ Forall (fun m =>
                templated.sender m = sender
                ∧ answered t pname builder td (recipient m) = true) sent.
Proof.
  intros pname. rewrite send_to_all_unfold.
  destruct (build_messages platform sender rs content td t builder w)
    as [[msgs|e] w1] eqn:Hrun.
  - pose proof (build_messages_outbox _ _ _ _ _ _ _ _ _ _ Hrun) as Hout.
    destruct (run_recipients_senders platform sender rs content
                td t builder w msgs w1 Hrun) as (Hrec & Hsender).
    fold pname in Hrec.
    destruct (send_loop_prefix msgs w1) as (sent & [rest ->] & Hw).
    intros Hsend. rewrite Hsend in Hw. simpl in Hw. subst w'. simpl.
    exists sent. rewrite Hout. split; [done|].
    rewrite fmap_app in Hrec. split.
    + trans ((recipient <$> sent) ++ (recipient <$> rest));
        [by apply sublist_inserts_r|].
      rewrite Hrec. apply sublist_filter.
    + apply Forall_forall. intros m Hm. split.
      * rewrite Forall_forall in Hsender. apply Hsender.
        apply elem_of_app. by left.
      * assert (recipient m ∈ filter (answered t pname builder td) rs)
          as [Ha _]%list_elem_of_filter.
        { rewrite <-Hrec. apply elem_of_app. left.
          by apply list_elem_of_fmap_2. }
        by destruct (answered t pname builder td (recipient m)).
  - intros [= <- <-]. exists [].
    rewrite (build_messages_outbox _ _ _ _ _ _ _ _ _ _ Hrun).
    rewrite app_nil_r. split; [done|]. split; [apply sublist_nil_l|done].
Qed.

(** A run without given recipients on a platform that the table has hands
    to [basic.build_resources] the identifiers of the platform in the order
    in which the user table data first mentions them, and then sends to
    the recipients that come back; an exception of
    [basic.build_resources] ends the run before anything is built. *)
Theorem send_to_all_default
    (platform_name : string) (sender_data : SenderData) content td
    (data : list User) builder w :
  (∃ user : User, user ∈ data ∧ platform_name ∈ PyDict.keys user) →
  let w1 := mkWorld (log w ++ [(DEBUG, default_line)]) (outbox w) in
  ∃ t,
    UserTable_init data = Ok t
    ∧ send_to_all platform_name sender_data [] content td data builder w
      = match basic_build_resources platform_name sender_data
                (first_seen (ids_for data platform_name)) content with
        | Ok b =>
            _send_to_all (res_platform b) (res_sender b) (res_recipients b)
              (res_content b) td t builder w1
        | Raise e => (Raise e, w1)
        end.
Proof.
  intros Hp w1.
  destruct (UserTable_init_spec data) as (t & Ht & _).
  destruct (keys_order_of_table data t platform_name Ht Hp)
    as (m & Hm & Hkeys).
  exists t. split; [done|].
  unfold send_to_all, mbind at 1, M_bind.
  rewrite (build_resources_unfold _ _ _ _ _ _ t) by done.
  rewrite resolve_recipients_empty, Hm. simpl. rewrite Hkeys. fold w1.
  by destruct (basic_build_resources _ _ _ _).
Qed.

End sending.

(** ** The further properties on the demonstration table *)

Lemma build_messages_first_failure_witness :
  build_messages (mkPlatform Slack) "me" ["alice"] "Hi {}" () demo_table
    number_builder demo.world0
  = (Ok [mkMessage "me" "alice" "Hi Alice"], demo.world0)
  ∧ answered demo_table "slack" number_builder () "bob" = true
  ∧ substituted demo_table "slack" number_builder () "Hi {}" "bob"
    = Raise (TypeError
               "format() argument after * must be an iterable, not int")
  ∧ build_messages (mkPlatform Slack) "me" (["alice"] ++ "bob" :: ["carol"])
      "Hi {}" () demo_table number_builder demo.world0
    = (Raise (TypeError "Output of template_input_builder must be a tuple."),
       demo.world0).
Proof.
  split; [reflexivity|]. split; [reflexivity|]. split; [reflexivity|].
  exact (proj1 (build_messages_first_failure (mkPlatform Slack) "me"
                  ["alice"] "bob" ["carol"] "Hi {}" () demo_table
                  number_builder demo.world0 _ _ _
                  eq_refl eq_refl eq_refl)).
Defined.

Lemma build_messages_app_witness :
  build_messages (mkPlatform Slack) "me" ["carol"; "alice"] "Hi {}" ()
    demo_table demo_builder demo.world0
  = (Ok [mkMessage "me" "alice" "Hi Alice"],
     mkWorld [(ERROR, skip_line "carol")] [])
  ∧ build_messages (mkPlatform Slack) "me" (["carol"; "alice"] ++ ["alice"])
      "Hi {}" () demo_table demo_builder demo.world0
    = (Ok ([mkMessage "me" "alice" "Hi Alice"]
           ++ [mkMessage "me" "alice" "Hi Alice"]),
       mkWorld [(ERROR, skip_line "carol")] []).
Proof.
  split; [reflexivity|].
  exact (build_messages_app (mkPlatform Slack) "me" ["carol"; "alice"]
           ["alice"] "Hi {}" () demo_table demo_builder demo.world0 _ _
           eq_refl).
Defined.

Lemma build_messages_effects_witness :
  build_messages (mkPlatform Slack) "me" ["carol"; "bob"; "dave"] "Hi {}" ()
    demo_table number_builder demo.world0
  = (Raise (TypeError "Output of template_input_builder must be a tuple."),
     mkWorld [(ERROR, skip_line "carol")] [])
  ∧ outbox (mkWorld [(ERROR, skip_line "carol")] []) = outbox demo.world0
  ∧ ∃ visited,
      visited `prefix_of` ["carol"; "bob"; "dave"]
      ∧ [(ERROR, skip_line "carol")]
        = log demo.world0 ++ skip_lines demo_table "slack" visited
      ∧ (∀ msgs : list (Message string string),
           Raise
             (TypeError "Output of template_input_builder must be a tuple.")
           = Ok msgs →
           visited = ["carol"; "bob"; "dave"]).
Proof.
  split; [reflexivity|].
  exact (build_messages_effects (mkPlatform Slack) "me"
           ["carol"; "bob"; "dave"] "Hi {}" () demo_table number_builder
           demo.world0 _ _ eq_refl).
Defined.

Lemma build_messages_unknown_platform_witness :
  UserTable_init [[("slack", ["alice"])]] = Ok slack_only_table
  ∧ get_users slack_only_table "email" = Raise (KeyError "email")
  ∧ build_messages (mkPlatform Email) "me" ["alice"; "bob"] "Hi {}" ()
      slack_only_table demo_builder demo.world0
    = (Ok [],
       mkWorld [(ERROR, skip_line "alice"); (ERROR, skip_line "bob")] []).
Proof.
  split; [reflexivity|]. split; [reflexivity|].
  exact (build_messages_unknown_platform (mkPlatform Email) "me"
           ["alice"; "bob"] "Hi {}" () slack_only_table demo_builder
           demo.world0 (KeyError "email") eq_refl).
Defined.

Lemma build_messages_log_unrecognized_witness :
  get_users demo_table "slack" = Ok demo_slack_users
  ∧ build_messages (mkPlatform Slack) "me" demo_recipients "Hi {}" ()
      demo_table demo_builder demo.world0
    = (Ok [mkMessage "me" "alice" "Hi Alice"],
       mkWorld [(ERROR, skip_line "carol")] [])
  ∧ ∃ out,
      get_unrecognized demo_table "slack" demo_recipients = Ok out
      ∧ [(ERROR, skip_line "carol")]
        = (fun x => (ERROR, skip_line x)) <$> out.
Proof.
  split; [reflexivity|]. split; [reflexivity|].
  exact (build_messages_log_unrecognized (mkPlatform Slack) "me"
           demo_recipients "Hi {}" () demo_table demo_builder demo.world0
           _ _ demo_slack_users eq_refl eq_refl).
Defined.

Lemma send_to_all_delivers_witness :
  build_messages (mkPlatform Slack) "me" ["alice"; "bob"] "Hi {}" ()
    demo_table greeting_builder demo.world0
  = (Ok [mkMessage "me" "alice" "Hi there"; mkMessage "me" "bob" "Hi there"],
     demo.world0)
  ∧ (∀ m : Message string string,
       m ∈ [mkMessage "me" "alice" "Hi there";
            mkMessage "me" "bob" "Hi there"] →
       transport m = Ok ())
  ∧ _send_to_all (mkPlatform Slack) "me" ["alice"; "bob"] "Hi {}" ()
      demo_table greeting_builder demo.world0
    = (Ok (),
       mkWorld []
         [mkMessage "me" "alice" "Hi there"; mkMessage "me" "bob" "Hi there"]).
Proof.
  assert (∀ m : Message string string,
            m ∈ [mkMessage "me" "alice" "Hi there";
                 mkMessage "me" "bob" "Hi there"] →
            transport m = Ok ()) as Hok by done.
  split; [reflexivity|]. split; [exact Hok|].
  exact (send_to_all_delivers (mkPlatform Slack) "me" ["alice"; "bob"]
           "Hi {}" () demo_table greeting_builder demo.world0 _ _
           eq_refl Hok).
Defined.

Lemma send_to_all_transport_failure_witness :
  build_messages (H := refusing_adapters) (mkPlatform Slack) "me"
    ["alice"; "bob"; "alice"] "Hi {}" () demo_table greeting_builder
    demo.world0
  = (Ok ([mkMessage "me" "alice" "Hi there"]
         ++ mkMessage "me" "bob" "Hi there"
            :: [mkMessage "me" "alice" "Hi there"]),
     demo.world0)
  ∧ (∀ m' : Message string string,
       m' ∈ [mkMessage "me" "alice" "Hi there"] →
       transport (Adapters := refusing_adapters) m' = Ok ())
  ∧ transport (Adapters := refusing_adapters)
      (mkMessage "me" "bob" "Hi there")
    = Raise (ValueError "refused")
  ∧ _send_to_all (H := refusing_adapters) (mkPlatform Slack) "me"
      ["alice"; "bob"; "alice"] "Hi {}" () demo_table greeting_builder
      demo.world0
    = (Raise (ValueError "refused"),
       mkWorld [] [mkMessage "me" "alice" "Hi there"]).
Proof.
  assert (∀ m' : Message string string,
            m' ∈ [mkMessage "me" "alice" "Hi there"] →
            transport (Adapters := refusing_adapters) m' = Ok ()) as Hpre.
  { by intros m' ->%list_elem_of_singleton. }
  split; [reflexivity|]. split; [exact Hpre|]. split; [reflexivity|].
  exact (send_to_all_transport_failure (H := refusing_adapters)
           (mkPlatform Slack) "me" ["alice"; "bob"; "alice"] "Hi {}" ()
           demo_table greeting_builder demo.world0
           [mkMessage "me" "alice" "Hi there"]
           (mkMessage "me" "bob" "Hi there")
           [mkMessage "me" "alice" "Hi there"] demo.world0
           (ValueError "refused") eq_refl Hpre eq_refl).
Defined.

Lemma send_to_all_build_failure_witness :
  build_messages (mkPlatform Slack) "me" ["alice"; "bob"] "Hi {}" ()
    demo_table number_builder demo.world0
  = (Raise (TypeError "Output of template_input_builder must be a tuple."),
     demo.world0)
  ∧ _send_to_all (mkPlatform Slack) "me" ["alice"; "bob"] "Hi {}" ()
      demo_table number_builder demo.world0
    = (Raise (TypeError "Output of template_input_builder must be a tuple."),
       demo.world0)
  ∧ outbox demo.world0 = outbox demo.world0.
Proof.
  split; [reflexivity|].
  exact (send_to_all_build_failure (mkPlatform Slack) "me" ["alice"; "bob"]
           "Hi {}" () demo_table number_builder demo.world0 _ _ eq_refl).
Defined.

Lemma send_to_all_sends_answered_witness :
  _send_to_all (H := refusing_adapters) (mkPlatform Slack) "me"
    ["carol"; "alice"; "bob"; "alice"] "Hi {}" () demo_table
    greeting_builder demo.world0
  = (Raise (ValueError "refused"),
     mkWorld [(ERROR, skip_line "carol")] [mkMessage "me" "alice" "Hi there"])
  ∧ ∃ sent,
      [mkMessage "me" "alice" "Hi there"] = outbox demo.world0 ++ sent
      ∧ (recipient <$> sent) `sublist_of` ["carol"; "alice"; "bob"; "alice"]
      ∧ Forall (fun m =>
                  sender m = "me"
                  ∧ answered (H := refusing_adapters) demo_table "slack"
                      greeting_builder () (recipient m) = true) sent.
Proof.
  split; [reflexivity|].
  exact (send_to_all_sends_answered (H := refusing_adapters)
           (mkPlatform Slack) "me" ["carol"; "alice"; "bob"; "alice"]
           "Hi {}" () demo_table greeting_builder demo.world0 _ _ eq_refl).
Defined.

Lemma send_to_all_default_witness :
  (∃ user : User, user ∈ demo.table ∧ "slack" ∈ PyDict.keys user)
  ∧ ∃ t,
      UserTable_init demo.table = Ok t
      ∧ send_to_all "slack" "me" [] "Hi {}" () demo.table greeting_builder
          demo.world0
        = match basic_build_resources "slack" "me"
                  (first_seen (ids_for demo.table "slack")) "Hi {}" with
          | Ok b =>
              _send_to_all (res_platform b) (res_sender b) (res_recipients b)
                (res_content b) () t greeting_builder
                (mkWorld [(DEBUG, default_line)] [])
          | Raise e => (Raise e, mkWorld [(DEBUG, default_line)] [])
          end.
Proof.
  assert (∃ user : User, user ∈ demo.table ∧ "slack" ∈ PyDict.keys user)
    as Hp.
  { exists [("slack", ["alice"])]. split; by left. }
  split; [done|].
  exact (send_to_all_default "slack" "me" "Hi {}" () demo.table
           greeting_builder demo.world0 Hp).
Defined.
